(** * Agentic DevOps platform: access gate and agent pipelines

    A shallow embedding of [src/middleware/auth.js] (the bearer-token
    middleware) and of the agent routes that follow it in the same source
    file (code review, test writer, build predictor, docker handler,
    deploy, monitor, conversational deploy, vulnerability scan) with their
    two helper functions.

    Conventions of the embedding.
    - A JavaScript string is a [string]; each character stands for one
      UTF-16 code unit in the range U+0000..U+00FF, and [trim] and
      [toLowerCase] are the ECMAScript operations restricted to that range.
    - A JavaScript number is a binary64 [float]; the PR number of a request
      is kept in [Z].
    - A request field is typed as the data model types it; [None] is an
      absent field.  A field that the source calls a string method on
      ([commit_sha], the [repository] of the deploy routes) or only prints
      ([monitoring_duration]) is a [jsval], with [VUndefined] for an absent
      field.  A request body is parsed JSON, so such a value carries no
      function: only a string has the string methods.
    - Collaborators ([devopsService], [llmService], the clock and
      [Math.random]) are calls answered by a [World]; every call is recorded
      in a trace.  Calls to the logger do not influence a response and are
      left out.
    - [JSON.parse], [jwt.verify] and the conversion of a value to the text
      a template literal prints are parameters of the routes that use
      them. *)

From Stdlib Require Import String Ascii List ZArith Bool Lia DecimalString.
From Stdlib Require Import Floats.
Import ListNotations.

Set Warnings "-register-all,-inexact-float".
Open Scope string_scope.

(** ** JavaScript strings *)

Module JsString.

(** ECMAScript WhiteSpace and LineTerminator code units below U+0100:
    TAB, LF, VT, FF, CR, SP and NBSP. *)
Definition isWhiteSpace (c : ascii) : bool :=
  let n := nat_of_ascii c in
  ((9 <=? n) && (n <=? 13))%nat || (n =? 32)%nat || (n =? 160)%nat.

Fixpoint trimStart (s : string) : string :=
  match s with
  | EmptyString => EmptyString
  | String c s' => if isWhiteSpace c then trimStart s' else s
  end.

Fixpoint trimEnd (s : string) : string :=
  match s with
  | EmptyString => EmptyString
  | String c s' =>
      match trimEnd s' with
      | EmptyString => if isWhiteSpace c then EmptyString else String c EmptyString
      | t => String c t
      end
  end.

Definition trim (s : string) : string := trimEnd (trimStart s).

(** Upper-case letters below U+0100 are A-Z, U+00C0-U+00D6 and
    U+00D8-U+00DE; each maps to the code unit 32 above it. *)
Definition toLowerChar (c : ascii) : ascii :=
  let n := nat_of_ascii c in
  if ((65 <=? n) && (n <=? 90))%nat
     || ((192 <=? n) && (n <=? 214))%nat
     || ((216 <=? n) && (n <=? 222))%nat
  then ascii_of_nat (n + 32) else c.

Fixpoint toLowerCase (s : string) : string :=
  match s with
  | EmptyString => EmptyString
  | String c s' => String (toLowerChar c) (toLowerCase s')
  end.

Fixpoint startsWith (s p : string) {struct p} : bool :=
  match p, s with
  | EmptyString, _ => true
  | String a p', String b s' => Ascii.eqb a b && startsWith s' p'
  | String _ _, EmptyString => false
  end.

Fixpoint includes (s sub : string) : bool :=
  startsWith s sub
  || match s with
     | EmptyString => false
     | String _ s' => includes s' sub
     end.

(** [s.substring(n)] *)
Fixpoint substring_from (n : nat) (s : string) : string :=
  match n, s with
  | O, _ => s
  | S n', String _ s' => substring_from n' s'
  | S _, EmptyString => EmptyString
  end.

(** [s.substring(0, n)] *)
Fixpoint substring_to (n : nat) (s : string) : string :=
  match n, s with
  | S n', String c s' => String c (substring_to n' s')
  | _, _ => EmptyString
  end.

(** [s.split(sep)] for a one-character separator. *)
Fixpoint split (sep : ascii) (s : string) : list string :=
  match s with
  | EmptyString => [EmptyString]
  | String c s' =>
      if Ascii.eqb c sep then EmptyString :: split sep s'
      else match split sep s' with
           | [] => [String c EmptyString]
           | h :: t => String c h :: t
           end
  end.

(** [s.split(sep).pop()] *)
Definition split_pop (sep : ascii) (s : string) : string :=
  last (split sep s) EmptyString.

(** [s.replace(pat, '')] for a string pattern: the first occurrence of
    [pat] is removed. *)
Fixpoint remove_first (pat s : string) : string :=
  if startsWith s pat then substring_from (String.length pat) s
  else match s with
       | EmptyString => EmptyString
       | String c s' => String c (remove_first pat s')
       end.

Definition endsWith (s suffix : string) : bool :=
  (String.length suffix <=? String.length s)%nat
  && String.eqb (substring_from (String.length s - String.length suffix) s) suffix.

Definition truthy (s : string) : bool := negb (String.eqb s EmptyString).

End JsString.

(** ** JavaScript values, errors and responses *)

(** [VNative n] is the built-in member [n] that every object inherits from
    [Object.prototype]. *)
Inductive jsval : Type :=
| VUndefined
| VNull
| VBool (b : bool)
| VNum (x : float)
| VStr (s : string)
| VArr (items : list jsval)
| VObj (fields : list (string * jsval))
| VNative (name : string).

Definition of_option_string (o : option string) : jsval :=
  match o with
  | Some s => VStr s
  | None => VUndefined
  end.

(** The text a template literal interpolates for an optional string. *)
Definition interpolate (o : option string) : string :=
  match o with
  | Some s => s
  | None => "undefined"
  end.

Definition truthy_opt (o : option string) : bool :=
  match o with
  | Some s => JsString.truthy s
  | None => false
  end.

(** ToBoolean *)
Definition truthy (v : jsval) : bool :=
  match v with
  | VUndefined | VNull => false
  | VBool b => b
  | VNum x => negb (PrimFloat.is_zero x || PrimFloat.is_nan x)
  | VStr s => JsString.truthy s
  | VArr _ | VObj _ | VNative _ => true
  end.

(** [a || b] *)
Definition or_else (a b : jsval) : jsval := if truthy a then a else b.

(** The number of a count. *)
Definition number_of_nat (n : nat) : float :=
  PrimFloat.of_uint63 (Uint63.of_Z (Z.of_nat n)).

(** The members every object literal inherits from [Object.prototype]. *)
Definition object_prototype_members : list string :=
  ["constructor"; "hasOwnProperty"; "isPrototypeOf"; "propertyIsEnumerable";
   "toLocaleString"; "toString"; "valueOf"; "__proto__";
   "__defineGetter__"; "__defineSetter__"; "__lookupGetter__"; "__lookupSetter__"].

Fixpoint own_property (fields : list (string * jsval)) (key : string) : option jsval :=
  match fields with
  | [] => None
  | (k, v) :: rest => if String.eqb k key then Some v else own_property rest key
  end.

(** [object[key]] on an object literal with the given own fields. *)
Definition get_property (fields : list (string * jsval)) (key : string) : jsval :=
  match own_property fields key with
  | Some v => v
  | None => if existsb (String.eqb key) object_prototype_members
            then VNative key else VUndefined
  end.

(** A thrown [Error]: its message and its stack text. *)
Record JsError : Type := { message : string; stack : string }.

Inductive Outcome (A : Type) : Type :=
| Returned (a : A)
| Thrown (e : JsError).
Arguments Returned {A} a.
Arguments Thrown {A} e.

Record Response : Type := { status : Z; body : jsval }.

(** [res.json(b)] and [res.status(c).json(b)] *)
Definition json (b : jsval) : Response := {| status := 200; body := b |}.
Definition status_json (c : Z) (b : jsval) : Response := {| status := c; body := b |}.

(** [process.env] *)
Record Env : Type := {
  NODE_ENV : option string;
  MCP_SERVER_TOKEN : option string;
  JWT_SECRET : option string;
  DOCKER_REGISTRY_URL : option string
}.

Definition option_string_eqb (a : string) (b : option string) : bool :=
  match b with
  | Some s => String.eqb a s
  | None => false
  end.

Definition is_development (env : Env) : bool :=
  option_string_eqb "development" (NODE_ENV env).

(** ** AccessGate: [authMiddleware] *)

Module AccessGate.

(** What the middleware does with a request: it calls [next()] with
    [req.user] set, or it answers itself. *)
Inductive Decision : Type :=
| Next (user : jsval)
| Reply (r : Response).

Definition system_identity : jsval :=
  VObj [("id", VStr "system"); ("role", VStr "admin")].

Definition missing_credential (authHeader : option string) : Response :=
  status_json 401 (VObj [
    ("error", VStr "Access denied. No token provided or invalid format.");
    ("expected_format", VStr "Bearer <token>");
    ("received_header", VStr (if truthy_opt authHeader then "Bearer ***" else "none"))]).

Definition empty_credential : Response :=
  status_json 401 (VObj [
    ("error", VStr "Access denied. Empty token provided.");
    ("expected_format", VStr "Bearer <token>")]).

Definition invalid_credential (error : JsError) : Response :=
  status_json 401 (VObj [
    ("error", VStr "Invalid token");
    ("message", VStr (message error));
    ("hint", VStr "Make sure you are using the correct MCP_SERVER_TOKEN or a valid JWT token")]).

Section Middleware.

(** [jwt.verify(token, secret)] of the jsonwebtoken package: the decoded
    claims, or a thrown verification error. *)
Variable jwt_verify : string -> option string -> Outcome jsval.

(** The body of the outer [try]. *)
Definition authenticate (env : Env) (authHeader : option string) : Outcome Decision :=
  match authHeader with
  | None => Returned (Reply (missing_credential authHeader))
  | Some header =>
      if negb (JsString.truthy header) || negb (JsString.startsWith header "Bearer ")
      then Returned (Reply (missing_credential authHeader))
      else
        let token := JsString.substring_from 7 header in
        if negb (JsString.truthy token)
           || (String.length (JsString.trim token) =? 0)%nat
        then Returned (Reply empty_credential)
        else if is_development env && option_string_eqb token (MCP_SERVER_TOKEN env)
        then Returned (Next system_identity)
        else
          match jwt_verify token (JWT_SECRET env) with
          | Returned decoded => Returned (Next decoded)
          | Thrown jwtError =>
              if option_string_eqb token (MCP_SERVER_TOKEN env)
              then Returned (Next system_identity)
              else Thrown jwtError
          end
  end.

Definition authMiddleware (env : Env) (authHeader : option string) : Decision :=
  match authenticate env authHeader with
  | Returned d => d
  | Thrown error => Reply (invalid_credential error)
  end.

End Middleware.

End AccessGate.


(** ** Collaborators *)

(** What an LLM collaborator call resolves to.  [content = None] is a
    response without a [content] text. *)
Record LlmResult : Type := {
  content : option string;
  model : option string;
  provider : option string
}.

Module File.
(** An element of what [devopsService.fetchChangedFiles] resolves to. *)
Record t : Type := { filename : string; content : option string }.
End File.

(** The collaborator operations a route awaits, with the arguments the
    source passes. *)
Inductive Call : Type :=
| fetchPRDiff (repository : string) (pr_number : Z) (diff_url base_sha head_sha : option string)
| analyzeCode (diffContent analysis_type : string) (model : option string)
| generateResponse (prompt : string) (model : option string) (maxTokens : Z)
| postReviewComment (repository : string) (pr_number : Z) (result : jsval)
| fetchChangedFiles (repository : string) (pr_number : Z) (changed_files : option (list string))
| generateTests (content : string) (framework : jsval) (model : option string)
| createTestFile (repository : string) (test_file : jsval) (tests : option string)
| getRecentChanges (repository commit_sha : option string)
| getBuildHistory (repository branch : option string)
| analyzeDependencies (repository commit_sha : option string)
| predictBuildOutcome (changes buildHistory dependencyAnalysis : jsval) (model : option string)
| buildDockerImage (repository : option string) (imageTag : string)
| generateK8sManifests (repository : option string) (imageTag : string)
| fetchRepositoryContent (repository : option string) (branch : string)
| analyzeVulnerabilities (repoContent : jsval) (scan_type : string) (model : option string).

(** The type of what a call resolves to.  A diff is [None] when the
    collaborator resolves to [null] or [undefined]. *)
Definition Ret (c : Call) : Type :=
  match c with
  | fetchPRDiff _ _ _ _ _ => option string
  | analyzeCode _ _ _ => LlmResult
  | generateResponse _ _ _ => LlmResult
  | postReviewComment _ _ _ => unit
  | fetchChangedFiles _ _ _ => list File.t
  | generateTests _ _ _ => LlmResult
  | createTestFile _ _ _ => unit
  | getRecentChanges _ _ => jsval
  | getBuildHistory _ _ => jsval
  | analyzeDependencies _ _ => jsval
  | predictBuildOutcome _ _ _ _ => LlmResult
  | buildDockerImage _ _ => unit
  | generateK8sManifests _ _ => jsval
  | fetchRepositoryContent _ _ => jsval
  | analyzeVulnerabilities _ _ _ => LlmResult
  end.

(** What a route reads from the runtime: [Math.random()] and
    [new Date().toISOString()].  Neither can throw. *)
Inductive Builtin : Type := Math_random | Date_toISOString.

Definition BuiltinRet (b : Builtin) : Type :=
  match b with
  | Math_random => float
  | Date_toISOString => string
  end.

Inductive Event : Type :=
| Awaited (c : Call)
| Read (b : Builtin).

(** The environment of a request: given the events so far, what the next
    call resolves to or rejects with, and what the runtime yields. *)
Record World : Type := {
  resolve : list Event -> forall c : Call, Outcome (Ret c);
  builtin : list Event -> forall b : Builtin, BuiltinRet b
}.

(** ** The pipeline monad: collaborator calls, a trace, and exceptions *)

Definition Pipeline (A : Type) : Type := World -> list Event -> Outcome A * list Event.

Definition ret {A : Type} (a : A) : Pipeline A := fun _ trace => (Returned a, trace).

Definition throw {A : Type} (e : JsError) : Pipeline A := fun _ trace => (Thrown e, trace).

Definition bind {A B : Type} (m : Pipeline A) (k : A -> Pipeline B) : Pipeline B :=
  fun w trace =>
    match m w trace with
    | (Returned a, trace') => k a w trace'
    | (Thrown e, trace') => (Thrown e, trace')
    end.

(** [await c] *)
Definition await (c : Call) : Pipeline (Ret c) :=
  fun w trace => (resolve w trace c, (trace ++ [Awaited c])%list).

Definition read (b : Builtin) : Pipeline (BuiltinRet b) :=
  fun w trace => (Returned (builtin w trace b), (trace ++ [Read b])%list).

(** [try { body } catch (error) { handler }] *)
Definition try_catch {A : Type} (body : Pipeline A) (handler : JsError -> Pipeline A) : Pipeline A :=
  fun w trace =>
    match body w trace with
    | (Returned a, trace') => (Returned a, trace')
    | (Thrown e, trace') => handler e w trace'
    end.

Declare Scope pipeline_scope.
Delimit Scope pipeline_scope with pipeline.
Notation "x <- m ;; k" := (bind m (fun x => k))
  (at level 61, m at next level, right associativity) : pipeline_scope.
Notation "m ;;; k" := (bind m (fun _ => k))
  (at level 61, right associativity) : pipeline_scope.

(** Running a route against a world, from an empty trace. *)
Definition run {A : Type} (m : Pipeline A) (w : World) : Outcome A * list Event := m w [].

(** The [TypeError] the runtime raises when a member is read from
    [undefined] or [null]; of its stack text only the first line is kept. *)
Definition type_error (value property : string) : JsError :=
  let msg := "Cannot read properties of " ++ value ++ " (reading '" ++ property ++ "')" in
  {| message := msg; stack := "TypeError: " ++ msg |}.

(** The [TypeError] the runtime raises when a string method is called on a
    value that is not a string and so has no such method. *)
Definition not_a_function (callee : string) : JsError :=
  let msg := callee ++ " is not a function" in
  {| message := msg; stack := "TypeError: " ++ msg |}.

(** [text.method(...)] on a text that may be [undefined]. *)
Definition receiver (method : string) (text : option string) : Pipeline string :=
  match text with
  | Some s => ret s
  | None => throw (type_error "undefined" method)
  end.

Definition newline : ascii := ascii_of_nat 10.

(** ** Code Review Agent: [POST /code-review] *)

Module CodeReview.

Record Request : Type := {
  repository : option string;
  pr_number : option Z;
  diff_url : option string;
  base_sha : option string;
  head_sha : option string;
  llm_model : option string;
  analysis_type : option string
}.

Definition riskKeywords : list string :=
  ["security"; "vulnerability"; "critical"; "dangerous"; "unsafe"].

Definition hasHighRisk (analysis_content : string) : bool :=
  existsb (fun keyword => JsString.includes (JsString.toLowerCase analysis_content) keyword)
          riskKeywords.

Definition suggestionsPrompt (analysis_content : string) : string :=
  "Based on this code analysis, extract 3-5 specific, actionable suggestions:"
  ++ String newline (String newline analysis_content).

(** The inner [try]/[catch] around the split of the suggestions text. *)
Definition suggestions_of (suggestionsResponse : LlmResult) : list string :=
  match content suggestionsResponse with
  | Some text =>
      firstn 5 (filter (fun s => (0 <? String.length (JsString.trim s))%nat)
                       (JsString.split newline text))
  | None => ["Review the analysis for detailed recommendations"]
  end.

Definition result_record (analysis : LlmResult) (analysis_content : string)
           (suggestions : list string) (timestamp : string) : jsval :=
  VObj [
    ("status", VStr (if hasHighRisk analysis_content then "changes_requested" else "approved"));
    ("analysis", VStr analysis_content);
    ("risk_level", VStr (if hasHighRisk analysis_content then "high" else "low"));
    ("suggestions", VArr (map VStr suggestions));
    ("model_used", of_option_string (model analysis));
    ("provider", of_option_string (provider analysis));
    ("timestamp", VStr timestamp)].

Definition missing_parameter (name : string) : Response :=
  status_json 400 (VObj [
    ("error", VStr ("Missing required parameter: " ++ name));
    ("required_parameters", VArr [VStr "repository"; VStr "pr_number"])]).

Definition no_diff_content : Response :=
  status_json 400 (VObj [
    ("error", VStr "No diff content available for analysis");
    ("message", VStr "The PR may not have any changes or the repository may not be accessible")]).

(** The [catch] block of the route. *)
Definition failure (env : Env) (error : JsError) : Response :=
  let '(errorMessage, statusCode) :=
    if JsString.includes (message error) "404"
    then ("Repository or PR not found. Please check the repository name and PR number.", 404%Z)
    else if JsString.includes (message error) "401" || JsString.includes (message error) "403"
    then ("Authentication failed. Please check your GitHub token permissions.", 401%Z)
    else (message error, 500%Z) in
  status_json statusCode (VObj [
    ("error", VStr "Code review failed");
    ("message", VStr errorMessage);
    ("details", if is_development env then VStr (stack error) else VUndefined)]).

(** The stages after the diff has been checked. *)
Definition analyse (repo : string) (pr : Z) (req : Request) (diffContent : string)
  : Pipeline Response :=
  (analysis <- await (analyzeCode diffContent
                        (match analysis_type req with
                         | Some t => t
                         | None => "comprehensive"
                         end)
                        (llm_model req)) ;;
   analysis_content <- receiver "toLowerCase" (content analysis) ;;
   suggestionsResponse <- await (generateResponse (suggestionsPrompt analysis_content)
                                                   (llm_model req) 1000) ;;
   let suggestions := suggestions_of suggestionsResponse in
   timestamp <- read Date_toISOString ;;
   let result := result_record analysis analysis_content suggestions timestamp in
   await (postReviewComment repo pr result) ;;;
   ret (json result))%pipeline.

(** The stages after the two parameter checks. *)
Definition review (repo : string) (pr : Z) (req : Request) : Pipeline Response :=
  (diffContent <- await (fetchPRDiff repo pr (diff_url req) (base_sha req) (head_sha req)) ;;
   match diffContent with
   | None => ret no_diff_content
   | Some diff =>
       if negb (JsString.truthy diff) || (String.length (JsString.trim diff) =? 0)%nat
       then ret no_diff_content
       else analyse repo pr req diff
   end)%pipeline.

Definition handler (env : Env) (req : Request) : Pipeline Response :=
  try_catch
    (match repository req with
     | None => ret (missing_parameter "repository")
     | Some repo =>
         if negb (JsString.truthy repo) then ret (missing_parameter "repository")
         else match pr_number req with
              | None => ret (missing_parameter "pr_number")
              | Some pr =>
                  if (pr =? 0)%Z then ret (missing_parameter "pr_number")
                  else review repo pr req
              end
     end)
    (fun error => ret (failure env error)).

End CodeReview.

(** ** Helper functions: the framework catalog *)

Module FrameworkCatalog.

Definition frameworks : list (string * jsval) :=
  [("js", VStr "jest");
   ("ts", VStr "jest");
   ("py", VStr "pytest");
   ("java", VStr "junit");
   ("go", VStr "testing");
   ("rb", VStr "rspec");
   ("php", VStr "phpunit")].

Definition detectTestFramework (content : option string) (filename : string) : jsval :=
  if JsString.includes filename ".test." || JsString.includes filename ".spec."
  then VStr "existing"
  else
    let ext := JsString.split_pop "." filename in
    or_else (get_property frameworks ext) (VStr "generic").

Definition patterns (baseName ext : string) : list (string * jsval) :=
  [("jest", VStr (baseName ++ ".test." ++ ext));
   ("pytest", VStr ("test_" ++ JsString.split_pop "/" baseName ++ ".py"));
   ("junit", VStr (baseName ++ "Test.java"));
   ("testing", VStr (baseName ++ "_test.go"));
   ("rspec", VStr (baseName ++ "_spec.rb"));
   ("phpunit", VStr (baseName ++ "Test.php"))].

(** [framework] is a string, or a member inherited from
    [Object.prototype], whose string form names no property. *)
Definition generateTestFileName (filename : string) (framework : jsval) : jsval :=
  let ext := JsString.split_pop "." filename in
  let baseName := JsString.remove_first ("." ++ ext) filename in
  or_else (match framework with
           | VStr name => get_property (patterns baseName ext) name
           | _ => VUndefined
           end)
          (VStr (baseName ++ ".test." ++ ext)).

(** The catalog as the test writer uses it on a file name. *)
Definition resolve (filename : string) : jsval * jsval :=
  let framework := detectTestFramework None filename in
  (framework, generateTestFileName filename framework).

End FrameworkCatalog.

(** ** Test Writer Agent: [POST /test-writer] *)

(** [Math.min(a, b)] *)
Definition Math_min (a b : float) : float :=
  if PrimFloat.is_nan a || PrimFloat.is_nan b then PrimFloat.nan
  else if PrimFloat.ltb a b then a
  else if PrimFloat.ltb b a then b
  else if PrimFloat.is_zero a && PrimFloat.get_sign a then a
  else b.

Module TestWriter.

Record Request : Type := {
  repository : option string;
  pr_number : option Z;
  changed_files : option (list string);
  llm_model : option string;
  test_framework : option string
}.

Record GeneratedTest : Type := {
  filename : string;
  test_file : jsval;
  tests : option string;
  framework : jsval
}.

(** [filename.match(/\.(js|ts|py|java|go)$/)] *)
Definition is_source_file (filename : string) : bool :=
  existsb (JsString.endsWith filename) [".js"; ".ts"; ".py"; ".java"; ".go"].

Definition coverage_estimate (random : float) : float :=
  Math_min (85 + random * 10) 95.

(** The first loop: one LLM call per source file that has content.  The
    state is the counter and the list the loop appends to. *)
Fixpoint generate (req : Request) (filesContent : list File.t)
         (totalTestsGenerated : nat) (generatedTests : list GeneratedTest)
  : Pipeline (nat * list GeneratedTest) :=
  match filesContent with
  | [] => ret (totalTestsGenerated, generatedTests)
  | file :: rest =>
      match File.content file with
      | Some text =>
          if JsString.truthy text && is_source_file (File.filename file)
          then
            let detectedFramework :=
              if truthy_opt (test_framework req)
              then of_option_string (test_framework req)
              else FrameworkCatalog.detectTestFramework (File.content file)
                                                        (File.filename file) in
            (tests <- await (generateTests text detectedFramework (llm_model req)) ;;
             generate req rest (S totalTestsGenerated)
               (generatedTests ++
                [{| filename := File.filename file;
                    test_file := FrameworkCatalog.generateTestFileName (File.filename file)
                                                                       detectedFramework;
                    tests := content tests;
                    framework := detectedFramework |}])%list)%pipeline
          else generate req rest totalTestsGenerated generatedTests
      | None => generate req rest totalTestsGenerated generatedTests
      end
  end.

(** The second loop: one file creation per generated test. *)
Fixpoint create (repo : string) (generatedTests : list GeneratedTest) : Pipeline unit :=
  match generatedTests with
  | [] => ret tt
  | test :: rest =>
      (await (createTestFile repo (test_file test) (tests test)) ;;;
       create repo rest)%pipeline
  end.

Definition missing_parameters (req : Request) (pr_given : bool) : Response :=
  status_json 400 (VObj [
    ("error", VStr "Missing required parameters");
    ("required_parameters", VArr [VStr "repository"; VStr "pr_number"]);
    ("received", VObj [("repository", VBool (truthy_opt (repository req)));
                       ("pr_number", VBool pr_given)])]).

Definition failure (error : JsError) : Response :=
  status_json 500 (VObj [
    ("error", VStr "Test generation failed");
    ("message", VStr (message error));
    ("tests_generated", VNum 0)]).

Definition write_tests (repo : string) (pr : Z) (req : Request) : Pipeline Response :=
  (filesContent <- await (fetchChangedFiles repo pr (changed_files req)) ;;
   generated <- generate req filesContent 0 [] ;;
   let '(totalTestsGenerated, generatedTests) := generated in
   create repo generatedTests ;;;
   random <- read Math_random ;;
   timestamp <- read Date_toISOString ;;
   ret (json (VObj [
     ("tests_generated", VNum (number_of_nat totalTestsGenerated));
     ("test_files", VArr (map test_file generatedTests));
     ("coverage_estimate", VNum (coverage_estimate random));
     ("timestamp", VStr timestamp)])))%pipeline.

Definition handler (req : Request) : Pipeline Response :=
  try_catch
    (let pr_given := match pr_number req with
                     | Some pr => negb (pr =? 0)%Z
                     | None => false
                     end in
     match repository req, pr_number req with
     | Some repo, Some pr =>
         if negb (JsString.truthy repo) || negb pr_given
         then ret (missing_parameters req pr_given)
         else write_tests repo pr req
     | _, _ => ret (missing_parameters req pr_given)
     end)
    (fun error => ret (failure error)).

End TestWriter.

(** ** Structured LLM output *)

(** Own enumerable properties copied by an object spread [{...v}]. *)
Definition index_key (n : nat) : string := NilEmpty.string_of_uint (Nat.to_uint n).

Fixpoint indexed {A : Type} (f : A -> jsval) (from : nat) (l : list A) : list (string * jsval) :=
  match l with
  | [] => []
  | x :: rest => (index_key from, f x) :: indexed f (S from) rest
  end.

Definition spread (v : jsval) : list (string * jsval) :=
  match v with
  | VObj fields => fields
  | VArr items => indexed (fun x => x) 0 items
  | VStr s => indexed (fun c => VStr (String c EmptyString)) 0 (list_ascii_of_string s)
  | _ => []
  end.

(** A later key of an object literal replaces the value of an earlier equal
    key and keeps its place. *)
Fixpoint set_property (fields : list (string * jsval)) (key : string) (v : jsval)
  : list (string * jsval) :=
  match fields with
  | [] => [(key, v)]
  | (k, old) :: rest =>
      if String.eqb k key then (k, v) :: rest else (k, old) :: set_property rest key v
  end.

Definition assign (fields more : list (string * jsval)) : list (string * jsval) :=
  fold_left (fun acc kv => set_property acc (fst kv) (snd kv)) more fields.

(** [value[key]] for a key that is no built-in member of a string, a number,
    a boolean or an array. *)
Definition member (value : jsval) (key : string) : Outcome jsval :=
  match value with
  | VUndefined => Thrown (type_error "undefined" key)
  | VNull => Thrown (type_error "null" key)
  | VObj fields => Returned (get_property fields key)
  | _ => Returned VUndefined
  end.

(** [value.length] *)
Definition length_of (value : jsval) : jsval :=
  match value with
  | VArr items => VNum (number_of_nat (List.length items))
  | VStr s => VNum (number_of_nat (String.length s))
  | VObj fields => get_property fields "length"
  | _ => VUndefined
  end.

(** ** Build Predictor Agent: [POST /build-predictor] *)

Module BuildPredictor.

Record Request : Type := {
  repository : option string;
  branch : option string;
  commit_sha : option string;
  llm_model : option string;
  include_dependencies : option bool
}.

Definition default_prediction : jsval :=
  VObj [
    ("success_probability", VNum 75);
    ("estimated_duration", VStr "5-8 minutes");
    ("potential_issues", VArr [VStr "Dependency conflicts possible"]);
    ("resource_requirements", VObj [("cpu", VStr "medium"); ("memory", VStr "medium")]);
    ("confidence_score", VNum 0.7)].

Definition failure (error : JsError) : Response :=
  status_json 500 (VObj [
    ("error", VStr "Build prediction failed");
    ("message", VStr (message error));
    ("success_probability", VNum 50)]).

Section Route.

(** [JSON.parse]: the parsed value, or [None] when it throws. *)
Variable JSON_parse : string -> option jsval.

(** [try { JSON.parse(prediction.content) } catch { default }]; an
    absent content is parsed as the text [undefined]. *)
Definition parse_or_default (prediction : LlmResult) : jsval :=
  match JSON_parse (interpolate (content prediction)) with
  | Some parsed => parsed
  | None => default_prediction
  end.

Definition handler (req : Request) : Pipeline Response :=
  try_catch
    (changes <- await (getRecentChanges (repository req) (commit_sha req)) ;;
     buildHistory <- await (getBuildHistory (repository req) (branch req)) ;;
     dependencyAnalysis <-
       (if match include_dependencies req with
           | Some b => b
           | None => true
           end
        then await (analyzeDependencies (repository req) (commit_sha req))
        else ret VNull) ;;
     prediction <- await (predictBuildOutcome changes buildHistory dependencyAnalysis
                                              (llm_model req)) ;;
     let buildPrediction := parse_or_default prediction in
     timestamp <- read Date_toISOString ;;
     ret (json (VObj (assign (spread buildPrediction) [
       ("commit_sha", of_option_string (commit_sha req));
       ("branch", of_option_string (branch req));
       ("model_used", of_option_string (model prediction));
       ("provider", of_option_string (provider prediction));
       ("dependency_analysis", dependencyAnalysis);
       ("timestamp", VStr timestamp)]))))%pipeline
    (fun error => ret (failure error)).

End Route.

End BuildPredictor.

(** ** Docker/K8s Handler Agent: [POST /docker-handler] *)

Module DockerHandler.

Record Request : Type := {
  repository : option string;
  commit_sha : jsval;
  build_prediction : jsval;
  action : option string
}.

(** [`${repository}:${commit_sha ? commit_sha.substring(0, 8) : 'latest'}`];
    a truthy value that is not a string has no [substring]. *)
Definition imageTag (req : Request) : Outcome string :=
  if truthy (commit_sha req)
  then match commit_sha req with
       | VStr sha => Returned (interpolate (repository req) ++ ":" ++ JsString.substring_to 8 sha)
       | _ => Thrown (not_a_function "commit_sha.substring")
       end
  else Returned (interpolate (repository req) ++ ":" ++ "latest").

Definition unsupported_action : Response :=
  status_json 400 (VObj [
    ("error", VStr "Unsupported action");
    ("supported_actions", VArr [VStr "build_and_push"])]).

Definition failure (error : JsError) : Response :=
  status_json 500 (VObj [
    ("error", VStr "Docker/K8s operation failed");
    ("message", VStr (message error))]).

Definition handler (env : Env) (req : Request) : Pipeline Response :=
  try_catch
    (match imageTag req with
     | Thrown error => throw error
     | Returned tag =>
         if option_string_eqb "build_and_push" (action req)
         then
           (await (buildDockerImage (repository req) tag) ;;;
            k8sManifests <- await (generateK8sManifests (repository req) tag) ;;
            timestamp <- read Date_toISOString ;;
            ret (json (VObj [
              ("image_tag", VStr tag);
              ("image_pushed", VBool true);
              ("k8s_manifests", k8sManifests);
              ("registry_url", of_option_string (DOCKER_REGISTRY_URL env));
              ("timestamp", VStr timestamp)])))%pipeline
         else ret unsupported_action
     end)
    (fun error => ret (failure error)).

End DockerHandler.

(** ** Monitor Agent: [POST /monitor] *)

Module Monitor.

Record Request : Type := {
  deployment_id : option string;
  environment : option string;
  monitoring_duration : jsval
}.

Record Metrics : Type := {
  cpu_usage : float;
  memory_usage : float;
  response_time : float;
  error_rate : float
}.

(** The two [if]s that push onto [monitoringResult.alerts]. *)
Definition alerts (metrics : Metrics) : list string :=
  ((if PrimFloat.ltb 80 (cpu_usage metrics) then ["High CPU usage detected"] else [])
   ++ (if PrimFloat.ltb 3 (error_rate metrics) then ["Elevated error rate detected"] else []))%list.

Definition failure (error : JsError) : Response :=
  status_json 500 (VObj [
    ("error", VStr "Monitoring failed");
    ("message", VStr (message error))]).

(** The four draws of the metrics block, in source order. *)
Definition sample : Pipeline Metrics :=
  (r1 <- read Math_random ;;
   r2 <- read Math_random ;;
   r3 <- read Math_random ;;
   r4 <- read Math_random ;;
   ret {| cpu_usage := r1 * 100;
          memory_usage := r2 * 100;
          response_time := r3 * 1000;
          error_rate := r4 * 5 |})%pipeline.

Section Route.

(** The text a template literal prints for a value (ToString). *)
Variable ToString : jsval -> string.

Definition monitoringResult (req : Request) (metrics : Metrics) (timestamp : string) : jsval :=
  VObj [
    ("deployment_id", of_option_string (deployment_id req));
    ("environment", of_option_string (environment req));
    ("status", VStr "healthy");
    ("metrics", VObj [
       ("cpu_usage", VNum (cpu_usage metrics));
       ("memory_usage", VNum (memory_usage metrics));
       ("response_time", VNum (response_time metrics));
       ("error_rate", VNum (error_rate metrics))]);
    ("dashboard_url",
     VStr ("https://monitoring.example.com/dashboard/" ++ interpolate (deployment_id req)));
    ("alerts", VArr (map VStr (alerts metrics)));
    ("monitoring_duration",
     VStr (ToString (match monitoring_duration req with
                     | VUndefined => VNum 300
                     | given => given
                     end) ++ "s"));
    ("timestamp", VStr timestamp)].

Definition handler (req : Request) : Pipeline Response :=
  try_catch
    (metrics <- sample ;;
     timestamp <- read Date_toISOString ;;
     ret (json (monitoringResult req metrics timestamp)))%pipeline
    (fun error => ret (failure error)).

End Route.

End Monitor.

(** ** Security Vulnerability Scanner: [POST /security/vulnerability-scan] *)

Module VulnerabilityScan.

Record Request : Type := {
  repository : option string;
  branch : option string;
  scan_type : option string;
  llm_model : option string
}.

(** The body of the [catch] around the parse, on the lowercased text. *)
Definition fallback_risk (lowered : string) : string :=
  if JsString.includes lowered "critical" || JsString.includes lowered "high risk"
  then "high"
  else if JsString.includes lowered "medium" || JsString.includes lowered "moderate"
  then "medium"
  else "low".

Definition failure (error : JsError) : Response :=
  status_json 500 (VObj [
    ("error", VStr "Vulnerability scan failed");
    ("message", VStr (message error));
    ("risk_level", VStr "unknown")]).

Section Route.

(** [JSON.parse]: the parsed value, or [None] when it throws. *)
Variable JSON_parse : string -> option jsval.

(** The body of the inner [try]: the two assignments, or the error that
    interrupts them. *)
Definition structured (vulnerabilityAnalysis : LlmResult) : option (jsval * jsval) :=
  match JSON_parse (interpolate (content vulnerabilityAnalysis)) with
  | None => None
  | Some analysis =>
      match member analysis "vulnerabilities", member analysis "risk_level" with
      | Returned vulnerabilities, Returned risk_level =>
          Some (or_else vulnerabilities (VArr []), or_else risk_level (VStr "low"))
      | _, _ => None
      end
  end.

(** [vulnerabilities] and [riskLevel] after the [try]/[catch]. *)
Definition parse (vulnerabilityAnalysis : LlmResult) : Pipeline (jsval * jsval) :=
  match structured vulnerabilityAnalysis with
  | Some parsed => ret parsed
  | None =>
      (text <- receiver "toLowerCase" (content vulnerabilityAnalysis) ;;
       ret (VArr [], VStr (fallback_risk (JsString.toLowerCase text))))%pipeline
  end.

Definition handler (req : Request) : Pipeline Response :=
  let branch := match branch req with Some b => b | None => "main" end in
  let scan_type := match scan_type req with Some t => t | None => "comprehensive" end in
  try_catch
    (repoContent <- await (fetchRepositoryContent (repository req) branch) ;;
     vulnerabilityAnalysis <- await (analyzeVulnerabilities repoContent scan_type
                                                            (llm_model req)) ;;
     parsed <- parse vulnerabilityAnalysis ;;
     let '(vulnerabilities, riskLevel) := parsed in
     timestamp <- read Date_toISOString ;;
     ret (json (VObj [
       ("repository", of_option_string (repository req));
       ("branch", VStr branch);
       ("scan_type", VStr scan_type);
       ("risk_level", riskLevel);
       ("vulnerabilities", vulnerabilities);
       ("total_issues", length_of vulnerabilities);
       ("model_used", of_option_string (model vulnerabilityAnalysis));
       ("provider", of_option_string (provider vulnerabilityAnalysis));
       ("timestamp", VStr timestamp)])))%pipeline
    (fun error => ret (failure error)).

End Route.

End VulnerabilityScan.

(** ** Concrete worlds, environments and verifiers *)

Definition unavailable : JsError :=
  {| message := "service unavailable"; stack := "Error: service unavailable" |}.

Definition fixed_builtin (random : float) (b : Builtin) : BuiltinRet b :=
  match b with
  | Math_random => random
  | Date_toISOString => "2024-01-01T00:00:00.000Z"
  end.

(** A world in which every collaborator call is rejected. *)
Definition offline_world : World :=
  {| resolve := fun _ _ => Thrown unavailable;
     builtin := fun _ => fixed_builtin 0.5 |}.

Definition production : Env :=
  {| NODE_ENV := Some "production";
     MCP_SERVER_TOKEN := Some "s3cret";
     JWT_SECRET := Some "signing-key";
     DOCKER_REGISTRY_URL := Some "registry.example.com" |}.

Definition development : Env :=
  {| NODE_ENV := Some "development";
     MCP_SERVER_TOKEN := Some "s3cret";
     JWT_SECRET := Some "signing-key";
     DOCKER_REGISTRY_URL := Some "registry.example.com" |}.

(** A verifier that rejects every token. *)
Definition jwt_malformed : JsError :=
  {| message := "jwt malformed"; stack := "JsonWebTokenError: jwt malformed" |}.

Definition reject_all (token : string) (secret : option string) : Outcome jsval :=
  Thrown jwt_malformed.

(** A world that answers every call: the diff, the changed files, one LLM
    function for the four LLM operations, and one random draw. *)
Definition world_of (diff : option string) (files : list File.t)
           (llm : Call -> Outcome LlmResult) (random : float) : World :=
  {| resolve := fun _ c =>
       match c as c0 return Outcome (Ret c0) with
       | fetchPRDiff _ _ _ _ _ => Returned diff
       | analyzeCode _ _ _ as c0 => llm c0
       | generateResponse _ _ _ as c0 => llm c0
       | postReviewComment _ _ _ => Returned tt
       | fetchChangedFiles _ _ _ => Returned files
       | generateTests _ _ _ as c0 => llm c0
       | createTestFile _ _ _ => Returned tt
       | getRecentChanges _ _ => Returned (VArr [])
       | getBuildHistory _ _ => Returned (VArr [])
       | analyzeDependencies _ _ => Returned (VObj [])
       | predictBuildOutcome _ _ _ _ as c0 => llm c0
       | buildDockerImage _ _ => Returned tt
       | generateK8sManifests _ _ => Returned (VStr "kind: Deployment")
       | fetchRepositoryContent _ _ => Returned (VStr "index.js")
       | analyzeVulnerabilities _ _ _ as c0 => llm c0
       end;
     builtin := fun _ => fixed_builtin random |}.

Definition llm_result (text : string) : LlmResult :=
  {| content := Some text; model := Some "gpt-4"; provider := Some "openai" |}.

Definition timed_out : JsError :=
  {| message := "LLM request timed out"; stack := "Error: LLM request timed out" |}.

(** An LLM whose analysis succeeds and whose free-form generation rejects. *)
Definition llm_without_suggestions (c : Call) : Outcome LlmResult :=
  match c with
  | generateResponse _ _ _ => Thrown timed_out
  | _ => Returned (llm_result "Looks fine. Consider renaming the helper.")
  end.

Definition review_request : CodeReview.Request :=
  {| CodeReview.repository := Some "acme/shop";
     CodeReview.pr_number := Some 42%Z;
     CodeReview.diff_url := None;
     CodeReview.base_sha := None;
     CodeReview.head_sha := None;
     CodeReview.llm_model := None;
     CodeReview.analysis_type := None |}.

(** A stand-in for [JSON.parse] on the texts of the examples: it parses the
    three texts below and throws on every other text; none of the other
    texts it is run on is JSON. *)
Definition parse_literal (text : string) : option jsval :=
  if String.eqb text "null" then Some VNull
  else if String.eqb text "[]" then Some (VArr [])
  else if String.eqb text "{}" then Some (VObj [])
  else None.

Definition prediction_request : BuildPredictor.Request :=
  {| BuildPredictor.repository := Some "acme/shop";
     BuildPredictor.branch := Some "main";
     BuildPredictor.commit_sha := Some "0123456789abcdef";
     BuildPredictor.llm_model := None;
     BuildPredictor.include_dependencies := None |}.

Definition scan_request : VulnerabilityScan.Request :=
  {| VulnerabilityScan.repository := Some "acme/shop";
     VulnerabilityScan.branch := None;
     VulnerabilityScan.scan_type := None;
     VulnerabilityScan.llm_model := None |}.

Definition tests_request : TestWriter.Request :=
  {| TestWriter.repository := Some "acme/shop";
     TestWriter.pr_number := Some 42%Z;
     TestWriter.changed_files := None;
     TestWriter.llm_model := None;
     TestWriter.test_framework := None |}.

Definition changed_files_example : list File.t :=
  [{| File.filename := "src/cart.js"; File.content := Some "export const total = 0;" |};
   {| File.filename := "README.md"; File.content := Some "# shop" |}].

(** An LLM whose analysis reports a risk and whose suggestions come on two
    lines separated by a blank one. *)
Definition llm_review (c : Call) : Outcome LlmResult :=
  match c with
  | generateResponse _ _ _ =>
      Returned (llm_result ("Validate the payload"
                            ++ String newline (String newline "Add a regression test")))
  | _ => Returned (llm_result "The change introduces unsafe deserialization of request bodies.")
  end.

(** An LLM whose suggestions response carries no text. *)
Definition llm_silent_suggestions (c : Call) : Outcome LlmResult :=
  match c with
  | generateResponse _ _ _ =>
      Returned {| content := None; model := Some "gpt-4"; provider := Some "openai" |}
  | _ => Returned (llm_result "Looks fine. Consider renaming the helper.")
  end.

(** ** Vocabulary of the properties *)

(** [keyword] occurs in [text] up to letter case. *)
Definition occurs_ignoring_case (keyword text : string) : Prop :=
  exists before matched after,
    text = before ++ matched ++ after
    /\ JsString.toLowerCase matched = JsString.toLowerCase keyword.

(** Every character of [s] is trimmed by [String.prototype.trim]; the empty
    string included. *)
Definition whitespace_only (s : string) : Prop :=
  Forall (fun c => JsString.isWhiteSpace c = true) (list_ascii_of_string s).

(** A binary64 value that is a zero, a positive finite number or plus
    infinity. *)
Definition nonnegative_float (v : spec_float) : Prop :=
  match v with
  | S754_zero _ | S754_finite false _ _ | S754_infinity false => True
  | _ => False
  end.

(** ** Deploy Agent and Conversational Deploy Agent: [POST /deploy],
    [POST /deploy/conversational] *)

(** The deployment operation of the DevOps collaborator and the reading
    [Date.now()] are parameters of the two deploy routes. *)

Module Deploy.

Record Request : Type := {
  repository : jsval;
  image_tag : option string;
  environment : option string;
  kubernetes_config : jsval
}.

(** [`https://${environment}.${repository ? repository.split('/')[1] : 'app'}.example.com`];
    a truthy value that is not a string has no [split]. *)
Definition deployment_url (environment : option string) (repository : jsval)
  : Outcome string :=
  if truthy repository
  then match repository with
       | VStr repo =>
           Returned ("https://" ++ interpolate environment ++ "."
                     ++ interpolate (nth_error (JsString.split "/" repo) 1)
                     ++ ".example.com")
       | _ => Thrown (not_a_function "repository.split")
       end
  else Returned ("https://" ++ interpolate environment ++ "." ++ "app" ++ ".example.com").

(** [`deploy-${Date.now()}`]; a reading of the clock is an integer of at
    most 8.64e15 in magnitude, which is printed in plain decimal. *)
Definition deployment_id (now : Z) : string :=
  "deploy-" ++ NilZero.string_of_int (Z.to_int now).

Definition failure (error : JsError) : Response :=
  status_json 500 (VObj [
    ("error", VStr "Deployment failed");
    ("message", VStr (message error))]).

Section Route.

(** [devopsService.deployToKubernetes(kubernetes_config, environment, image_tag)] *)
Variable deployToKubernetes : jsval -> option string -> option string -> Outcome jsval.

(** [Date.now()] *)
Variable Date_now : Z.

Definition handler (req : Request) : Pipeline Response :=
  try_catch
    (match deployToKubernetes (kubernetes_config req) (environment req) (image_tag req) with
     | Thrown error => throw error
     | Returned deploymentResult =>
         match deployment_url (environment req) (repository req) with
         | Thrown error => throw error
         | Returned url =>
             (timestamp <- read Date_toISOString ;;
              ret (json (VObj [
                ("deployment_id", VStr (deployment_id Date_now));
                ("deployment_url", VStr url);
                ("status", VStr "deployed");
                ("environment", of_option_string (environment req));
                ("image_tag", of_option_string (image_tag req));
                ("timestamp", VStr timestamp)])))%pipeline
         end
     end)
    (fun error => ret (failure error)).

End Route.

End Deploy.

Module ConversationalDeploy.

Record Request : Type := {
  repository : jsval;
  environment : option string;
  branch : option string;
  user_id : option string;
  conversational_context : jsval
}.

Definition deploymentSteps : list string :=
  ["Validating deployment parameters";
   "Checking environment availability";
   "Building application image";
   "Deploying to Kubernetes cluster";
   "Configuring load balancer";
   "Running health checks"].

Section Route.

(** [Date.now()] *)
Variable Date_now : Z.

Definition handler (req : Request) : Pipeline Response :=
  try_catch
    (let deploymentId := Deploy.deployment_id Date_now in
     match Deploy.deployment_url (environment req) (repository req) with
     | Thrown error => throw error
     | Returned deploymentUrl =>
         (timestamp <- read Date_toISOString ;;
          ret (json (VObj [
            ("deployment_id", VStr deploymentId);
            ("deployment_url", VStr deploymentUrl);
            ("status", VStr "success");
            ("steps_completed", VArr (map VStr deploymentSteps));
            ("environment", of_option_string (environment req));
            ("branch", of_option_string (branch req));
            ("estimated_completion", VStr "3-5 minutes");
            ("next_steps", VArr [VStr "Monitor deployment health";
                                 VStr "Run smoke tests";
                                 VStr "Update documentation"]);
            ("timestamp", VStr timestamp)])))%pipeline
     end)
    (fun error => ret (Deploy.failure error)).

End Route.

End ConversationalDeploy.

(** ** Further vocabulary *)

(** The character [c] does not occur in [s]. *)
Definition free_of (c : ascii) (s : string) : Prop :=
  ~ In c (list_ascii_of_string s).

(** The condition of the test writer's first loop: the file has content and
    its name ends in one of the listed extensions. *)
Definition eligible (file : File.t) : bool :=
  truthy_opt (File.content file) && TestWriter.is_source_file (File.filename file).

(** The framework the test writer uses for a file: the caller's override,
    else the detected one. *)
Definition framework_for (req : TestWriter.Request) (file : File.t) : jsval :=
  if truthy_opt (TestWriter.test_framework req)
  then of_option_string (TestWriter.test_framework req)
  else FrameworkCatalog.detectTestFramework (File.content file) (File.filename file).

Definition is_generateTests (e : Event) : Prop :=
  match e with
  | Awaited (generateTests _ _ _) => True
  | _ => False
  end.

Definition is_createTestFile (e : Event) : Prop :=
  match e with
  | Awaited (createTestFile _ _ _) => True
  | _ => False
  end.

Definition is_analyzeDependencies (e : Event) : Prop :=
  match e with
  | Awaited (analyzeDependencies _ _) => True
  | _ => False
  end.

(** ** Further concrete worlds and requests *)

(** A verifier that accepts one token and decodes it to a user. *)
Definition verified_user : jsval := VObj [("id", VStr "u-17"); ("role", VStr "developer")].

Definition accept_signed (token : string) (secret : option string) : Outcome jsval :=
  if String.eqb token "signed.jwt.token" then Returned verified_user
  else Thrown jwt_malformed.

Definition not_found : JsError :=
  {| message := "Request failed with status code 404";
     stack := "Error: Request failed with status code 404" |}.

(** A world whose collaborators all reject with [error]. *)
Definition failing_world (error : JsError) : World :=
  {| resolve := fun _ _ => Thrown error;
     builtin := fun _ => fixed_builtin 0.5 |}.

(** An LLM that cannot generate tests. *)
Definition llm_without_tests (c : Call) : Outcome LlmResult :=
  match c with
  | generateTests _ _ _ => Thrown timed_out
  | _ => Returned (llm_result "ok")
  end.

Definition prediction_without_dependencies : BuildPredictor.Request :=
  {| BuildPredictor.repository := Some "acme/shop";
     BuildPredictor.branch := Some "main";
     BuildPredictor.commit_sha := Some "0123456789abcdef";
     BuildPredictor.llm_model := None;
     BuildPredictor.include_dependencies := Some false |}.

Definition build_request : DockerHandler.Request :=
  {| DockerHandler.repository := Some "acme/shop";
     DockerHandler.commit_sha := VStr "0123456789abcdef";
     DockerHandler.build_prediction := VUndefined;
     DockerHandler.action := Some "build_and_push" |}.


(** An analysis that resolves without a text. *)
Definition llm_without_content (c : Call) : Outcome LlmResult :=
  Returned {| content := None; model := Some "gpt-4"; provider := Some "openai" |}.


(** * Properties *)

(** ** The embedding on concrete inputs *)

Example trim_spaces : JsString.trim "  a b  " = "a b".
Proof. reflexivity. Qed.

Example toLowerCase_mixed : JsString.toLowerCase "CRITICAL Issue #7" = "critical issue #7".
Proof. reflexivity. Qed.

Example split_pop_extension : JsString.split_pop "." "a/b/Widget.java" = "java".
Proof. reflexivity. Qed.

Example split_pop_no_separator : JsString.split_pop "." "Makefile" = "Makefile".
Proof. reflexivity. Qed.

Example remove_first_once : JsString.remove_first ".py" "a.py.py" = "a.py".
Proof. reflexivity. Qed.

Example detect_existing_test :
  FrameworkCatalog.detectTestFramework None "src/cart.test.js" = VStr "existing".
Proof. reflexivity. Qed.

(** An extension that names a member of [Object.prototype] finds that
    member in the table, not ["generic"]. *)
Example detect_inherited_member :
  FrameworkCatalog.detectTestFramework None "notes.constructor" = VNative "constructor".
Proof. reflexivity. Qed.

Example test_file_names :
  FrameworkCatalog.generateTestFileName "src/app.ts" (VStr "jest") = VStr "src/app.test.ts"
  /\ FrameworkCatalog.generateTestFileName "pkg/util.go" (VStr "testing") = VStr "pkg/util_test.go"
  /\ FrameworkCatalog.generateTestFileName "lib/core/io.py" (VStr "pytest") = VStr "test_io.py"
  /\ FrameworkCatalog.generateTestFileName "app/models/user.rb" (VStr "rspec")
     = VStr "app/models/user_spec.rb"
  /\ FrameworkCatalog.generateTestFileName "src/Mailer.php" (VStr "phpunit")
     = VStr "src/MailerTest.php"
  /\ FrameworkCatalog.generateTestFileName "src/main.c" (VStr "generic") = VStr "src/main.test.c".
Proof. repeat split. Qed.

(** A review whose analysis mentions unsafe deserialization requests
    changes, keeps the two non-empty suggestion lines and posts the record. *)
Example code_review_unsafe_deserialization :
  let record := VObj [
    ("status", VStr "changes_requested");
    ("analysis", VStr "The change introduces unsafe deserialization of request bodies.");
    ("risk_level", VStr "high");
    ("suggestions", VArr [VStr "Validate the payload"; VStr "Add a regression test"]);
    ("model_used", VStr "gpt-4");
    ("provider", VStr "openai");
    ("timestamp", VStr "2024-01-01T00:00:00.000Z")] in
  run (CodeReview.handler production review_request)
      (world_of (Some "+ pickle.loads(body)") [] llm_review 0.5)
  = (Returned (json record),
     [Awaited (fetchPRDiff "acme/shop" 42 None None None);
      Awaited (analyzeCode "+ pickle.loads(body)" "comprehensive" None);
      Awaited (generateResponse
                 (CodeReview.suggestionsPrompt
                    "The change introduces unsafe deserialization of request bodies.")
                 None 1000);
      Read Date_toISOString;
      Awaited (postReviewComment "acme/shop" 42 record)]).
Proof. reflexivity. Qed.

(** A suggestions response that resolves without a text is the case the
    inner [catch] covers: the review completes with the generic line. *)
Example code_review_suggestions_without_text :
  fst (run (CodeReview.handler production review_request)
           (world_of (Some "+ const total = price * qty;") [] llm_silent_suggestions 0.5))
  = Returned (json (VObj [
      ("status", VStr "approved");
      ("analysis", VStr "Looks fine. Consider renaming the helper.");
      ("risk_level", VStr "low");
      ("suggestions", VArr [VStr "Review the analysis for detailed recommendations"]);
      ("model_used", VStr "gpt-4");
      ("provider", VStr "openai");
      ("timestamp", VStr "2024-01-01T00:00:00.000Z")])).
Proof. reflexivity. Qed.

(** The header [Bearer] followed by a no-break space carries a credential
    that is not empty and is blank after trimming. *)
Example blank_credential_nbsp :
  AccessGate.authMiddleware reject_all production
    (Some ("Bearer " ++ String (ascii_of_nat 160) ""))
  = AccessGate.Reply AccessGate.empty_credential.
Proof. reflexivity. Qed.

Example missing_credential_scheme :
  AccessGate.authMiddleware reject_all production (Some "Basic dXNlcjpwdw==")
  = AccessGate.Reply (status_json 401 (VObj [
      ("error", VStr "Access denied. No token provided or invalid format.");
      ("expected_format", VStr "Bearer <token>");
      ("received_header", VStr "Bearer ***")])).
Proof. reflexivity. Qed.

(** ** Docker handler *)

Lemma option_string_eqb_false (a : string) (b : option string) :
  b <> Some a -> option_string_eqb a b = false.
Proof.
  destruct b as [s|]; simpl; intros H; [|reflexivity].
  apply String.eqb_neq. intros ->. now apply H.
Qed.





(** ** AccessGate *)

Lemma trim_nonblank_truthy (s : string) :
  JsString.trim s <> "" -> JsString.truthy s = true.
Proof.
  destruct s; [intros H; now elim H | reflexivity].
Qed.

Lemma trim_nonblank_length (s : string) :
  JsString.trim s <> "" -> (String.length (JsString.trim s) =? 0)%nat = false.
Proof.
  destruct (JsString.trim s); [intros H; now elim H | reflexivity].
Qed.

(** The bearer header of a credential passes the scheme check and yields
    the credential back. *)
Lemma authenticate_bearer (jwt_verify : string -> option string -> Outcome jsval)
      (env : Env) (credential : string) :
  JsString.trim credential <> "" ->
  AccessGate.authenticate jwt_verify env (Some ("Bearer " ++ credential))
  = if is_development env && option_string_eqb credential (MCP_SERVER_TOKEN env)
    then Returned (AccessGate.Next AccessGate.system_identity)
    else match jwt_verify credential (JWT_SECRET env) with
         | Returned decoded => Returned (AccessGate.Next decoded)
         | Thrown jwtError =>
             if option_string_eqb credential (MCP_SERVER_TOKEN env)
             then Returned (AccessGate.Next AccessGate.system_identity)
             else Thrown jwtError
         end.
Proof.
  intros Hblank.
  unfold AccessGate.authenticate.
  change (JsString.truthy ("Bearer " ++ credential)) with true.
  change (JsString.startsWith ("Bearer " ++ credential) "Bearer ") with true.
  change (JsString.substring_from 7 ("Bearer " ++ credential)) with credential.
  rewrite (trim_nonblank_truthy _ Hblank), (trim_nonblank_length _ Hblank).
  reflexivity.
Qed.

(** A credential that is blank after trimming is answered with the
    empty-credential response, whatever the secret and the verifier. *)
Lemma authMiddleware_blank (jwt_verify : string -> option string -> Outcome jsval)
      (env : Env) (credential : string) :
  JsString.trim credential = "" ->
  AccessGate.authMiddleware jwt_verify env (Some ("Bearer " ++ credential))
  = AccessGate.Reply AccessGate.empty_credential.
Proof.
  intros Hblank.
  unfold AccessGate.authMiddleware, AccessGate.authenticate.
  change (JsString.truthy ("Bearer " ++ credential)) with true.
  change (JsString.startsWith ("Bearer " ++ credential) "Bearer ") with true.
  change (JsString.substring_from 7 ("Bearer " ++ credential)) with credential.
  rewrite Hblank. simpl.
  now rewrite orb_true_r.
Qed.

(** C1, as amended.  For a credential that is not blank after trimming:
    when the development flag is set and the credential equals the shared
    secret, the gate calls [next()] with the system identity
    [{id: 'system', role: 'admin'}]; and when the credential fails
    signature verification and differs from the shared secret, the gate
    answers 401 with the invalid-token body.  A credential that is blank
    after trimming is answered 401 with the empty-token body before either
    check. *)
Theorem access_gate_decision (jwt_verify : string -> option string -> Outcome jsval)
        (env : Env) (credential : string) :
  (JsString.trim credential <> "" ->
   (NODE_ENV env = Some "development" ->
    MCP_SERVER_TOKEN env = Some credential ->
    AccessGate.authMiddleware jwt_verify env (Some ("Bearer " ++ credential))
    = AccessGate.Next (VObj [("id", VStr "system"); ("role", VStr "admin")]))
   /\
   (forall error : JsError,
      jwt_verify credential (JWT_SECRET env) = Thrown error ->
      MCP_SERVER_TOKEN env <> Some credential ->
      AccessGate.authMiddleware jwt_verify env (Some ("Bearer " ++ credential))
      = AccessGate.Reply (status_json 401 (VObj [
          ("error", VStr "Invalid token");
          ("message", VStr (message error));
          ("hint", VStr "Make sure you are using the correct MCP_SERVER_TOKEN or a valid JWT token")]))))
  /\
  (JsString.trim credential = "" ->
   AccessGate.authMiddleware jwt_verify env (Some ("Bearer " ++ credential))
   = AccessGate.Reply (status_json 401 (VObj [
       ("error", VStr "Access denied. Empty token provided.");
       ("expected_format", VStr "Bearer <token>")]))).
Proof.
  split; [|apply authMiddleware_blank].
  intros Hblank. split.
  - intros Hdev Hsecret.
    unfold AccessGate.authMiddleware.
    rewrite (authenticate_bearer _ _ _ Hblank).
    unfold is_development. rewrite Hdev, Hsecret. simpl.
    now rewrite String.eqb_refl.
  - intros error Hverify Hsecret.
    unfold AccessGate.authMiddleware.
    rewrite (authenticate_bearer _ _ _ Hblank).
    rewrite (option_string_eqb_false _ _ Hsecret), andb_false_r, Hverify.
    reflexivity.
Qed.

Lemma access_gate_decision_witness :
  AccessGate.authMiddleware reject_all development (Some "Bearer s3cret")
  = AccessGate.Next (VObj [("id", VStr "system"); ("role", VStr "admin")])
  /\ AccessGate.authMiddleware reject_all development (Some "Bearer forged")
     = AccessGate.Reply (status_json 401 (VObj [
         ("error", VStr "Invalid token");
         ("message", VStr "jwt malformed");
         ("hint", VStr "Make sure you are using the correct MCP_SERVER_TOKEN or a valid JWT token")]))
  /\ AccessGate.authMiddleware reject_all development (Some "Bearer  ")
     = AccessGate.Reply (status_json 401 (VObj [
         ("error", VStr "Access denied. Empty token provided.");
         ("expected_format", VStr "Bearer <token>")])).
Proof.
  split; [|split].
  - refine (proj1 (proj1 (access_gate_decision reject_all development "s3cret") _)
                  eq_refl eq_refl).
    simpl; discriminate.
  - refine (proj2 (proj1 (access_gate_decision reject_all development "forged") _)
                  jwt_malformed eq_refl _);
      simpl; discriminate.
  - exact (proj2 (access_gate_decision reject_all development " ") eq_refl).
Defined.

(** C1, as stated, fails in both halves at a credential made of one space:
    the credential is a non-empty string, yet the gate answers with the
    empty-credential body, both when it equals the shared secret under the
    development flag and when it differs from it and fails verification. *)
Lemma access_gate_blank_credential :
  AccessGate.authMiddleware reject_all development (Some "Bearer  ")
  = AccessGate.Reply (status_json 401 (VObj [
      ("error", VStr "Access denied. Empty token provided.");
      ("expected_format", VStr "Bearer <token>")]))
  /\ ~ (forall (env : Env) (credential : string),
          NODE_ENV env = Some "development" ->
          MCP_SERVER_TOKEN env = Some credential ->
          AccessGate.authMiddleware reject_all env (Some ("Bearer " ++ credential))
          = AccessGate.Next AccessGate.system_identity)
  /\ ~ (forall (env : Env) (credential : string) (error : JsError),
          credential <> "" ->
          reject_all credential (JWT_SECRET env) = Thrown error ->
          MCP_SERVER_TOKEN env <> Some credential ->
          AccessGate.authMiddleware reject_all env (Some ("Bearer " ++ credential))
          = AccessGate.Reply (AccessGate.invalid_credential error)).
Proof.
  split; [reflexivity | split].
  - intros Hclaim.
    specialize (Hclaim {| NODE_ENV := Some "development";
                          MCP_SERVER_TOKEN := Some " ";
                          JWT_SECRET := Some "signing-key";
                          DOCKER_REGISTRY_URL := None |} " " eq_refl eq_refl).
    discriminate Hclaim.
  - intros Hclaim.
    assert (Hsecret : MCP_SERVER_TOKEN development <> Some " ") by (simpl; discriminate).
    assert (Hnonempty : " " <> "") by discriminate.
    specialize (Hclaim development " " jwt_malformed Hnonempty eq_refl Hsecret).
    discriminate Hclaim.
Qed.

(** ** String facts *)

Lemma startsWith_app (p s : string) : JsString.startsWith (p ++ s) p = true.
Proof.
  induction p as [|c p IH]; simpl; [reflexivity|].
  now rewrite Ascii.eqb_refl.
Qed.

Lemma startsWith_inv (p s : string) :
  JsString.startsWith s p = true -> exists rest, s = p ++ rest.
Proof.
  revert s. induction p as [|c p IH]; intros s H; simpl in *.
  - now exists s.
  - destruct s as [|d s]; [discriminate|].
    apply andb_true_iff in H. destruct H as [Hc Hs].
    apply Ascii.eqb_eq in Hc. subst d.
    destruct (IH _ Hs) as [rest ->]. now exists rest.
Qed.

Lemma includes_unfold (s sub : string) :
  JsString.includes s sub
  = JsString.startsWith s sub
    || match s with
       | EmptyString => false
       | String _ s' => JsString.includes s' sub
       end.
Proof. destruct s; reflexivity. Qed.

Lemma includes_app (a sub b : string) : JsString.includes (a ++ sub ++ b) sub = true.
Proof.
  induction a as [|c a IH].
  - rewrite includes_unfold. simpl. now rewrite startsWith_app.
  - rewrite includes_unfold. simpl. rewrite IH. apply orb_true_r.
Qed.

Lemma includes_inv (s sub : string) :
  JsString.includes s sub = true -> exists a b, s = a ++ sub ++ b.
Proof.
  induction s as [|c s IH]; rewrite includes_unfold; intros H;
    apply orb_true_iff in H; destruct H as [H|H].
  - destruct (startsWith_inv _ _ H) as [rest ->]. now exists "", rest.
  - discriminate.
  - destruct (startsWith_inv _ _ H) as [rest ->]. now exists "", rest.
  - destruct (IH H) as (a & b & ->). now exists (String c a), b.
Qed.

Lemma toLowerCase_app (a b : string) :
  JsString.toLowerCase (a ++ b) = JsString.toLowerCase a ++ JsString.toLowerCase b.
Proof.
  induction a as [|c a IH]; simpl; [reflexivity | now rewrite IH].
Qed.

Lemma toLowerCase_split (t x y : string) :
  JsString.toLowerCase t = x ++ y ->
  exists t1 t2, t = t1 ++ t2 /\ JsString.toLowerCase t1 = x /\ JsString.toLowerCase t2 = y.
Proof.
  revert t. induction x as [|c x IH]; intros t H.
  - now exists "", t.
  - destruct t as [|d t]; [discriminate|].
    simpl in H. injection H as Hd Ht.
    destruct (IH _ Ht) as (t1 & t2 & -> & H1 & H2).
    exists (String d t1), t2. simpl. now rewrite Hd, H1, H2.
Qed.

(** [includes] on the lowercased text is occurrence up to letter case, for
    a keyword already in lower case. *)
Lemma includes_lowered (keyword text : string) :
  JsString.toLowerCase keyword = keyword ->
  JsString.includes (JsString.toLowerCase text) keyword = true
  <-> occurs_ignoring_case keyword text.
Proof.
  intros Hlow. split.
  - intros H. destruct (includes_inv _ _ H) as (a & b & Hab).
    destruct (toLowerCase_split _ _ _ Hab) as (t1 & t23 & -> & _ & H23).
    destruct (toLowerCase_split _ _ _ H23) as (t2 & t3 & -> & H2 & _).
    exists t1, t2, t3. now rewrite Hlow.
  - intros (before & matched & after & -> & Hm).
    rewrite !toLowerCase_app, Hm, Hlow. apply includes_app.
Qed.

Lemma trimStart_whitespace (s : string) :
  whitespace_only s -> JsString.trimStart s = "".
Proof.
  unfold whitespace_only.
  induction s as [|c s IH]; simpl; intros H; [reflexivity|].
  inversion H as [|? ? Hc Hs]; subst. rewrite Hc. now apply IH.
Qed.

Lemma trim_whitespace (s : string) : whitespace_only s -> JsString.trim s = "".
Proof.
  intros H. unfold JsString.trim. now rewrite (trimStart_whitespace _ H).
Qed.

(** ** Code review *)

Lemma riskKeywords_lowered (keyword : string) :
  In keyword CodeReview.riskKeywords -> JsString.toLowerCase keyword = keyword.
Proof.
  unfold CodeReview.riskKeywords. simpl.
  intros [<-|[<-|[<-|[<-|[<-|[]]]]]]; reflexivity.
Qed.

Lemma hasHighRisk_spec (text : string) :
  CodeReview.hasHighRisk text = true
  <-> exists keyword, In keyword CodeReview.riskKeywords /\ occurs_ignoring_case keyword text.
Proof.
  unfold CodeReview.hasHighRisk. rewrite existsb_exists.
  split; intros (keyword & Hin & H); exists keyword; split; try assumption;
    now apply (includes_lowered keyword text (riskKeywords_lowered _ Hin)).
Qed.

(** The handler, once both parameters are present, is the review under the
    route's [catch]. *)
Lemma code_review_handler_valid (env : Env) (req : CodeReview.Request) (repo : string) (pr : Z) :
  CodeReview.repository req = Some repo -> repo <> "" ->
  CodeReview.pr_number req = Some pr -> pr <> 0%Z ->
  CodeReview.handler env req
  = try_catch (CodeReview.review repo pr req) (fun error => ret (CodeReview.failure env error)).
Proof.
  intros Hrepo Hne Hpr Hnz. unfold CodeReview.handler.
  rewrite Hrepo, Hpr.
  apply String.eqb_neq in Hne. unfold JsString.truthy. rewrite Hne.
  apply Z.eqb_neq in Hnz. rewrite Hnz. reflexivity.
Qed.

(** C7. A code-review request with a repository and a PR number whose
    fetched diff is missing, empty or made of whitespace only is answered
    with status 400 and the body that names the diff as the cause; the trace
    holds the diff fetch alone, so no analysis is requested and no review
    comment is posted. *)
Theorem code_review_empty_diff (env : Env) (req : CodeReview.Request) (w : World)
        (repo : string) (pr : Z) (diff : option string) :
  let fetch := fetchPRDiff repo pr (CodeReview.diff_url req) (CodeReview.base_sha req)
                           (CodeReview.head_sha req) in
  CodeReview.repository req = Some repo -> repo <> "" ->
  CodeReview.pr_number req = Some pr -> pr <> 0%Z ->
  resolve w [] fetch = Returned diff ->
  (diff = None \/ exists text, diff = Some text /\ whitespace_only text) ->
  run (CodeReview.handler env req) w
  = (Returned (status_json 400 (VObj [
       ("error", VStr "No diff content available for analysis");
       ("message", VStr "The PR may not have any changes or the repository may not be accessible")])),
     [Awaited fetch]).
Proof.
  intros fetch Hrepo Hne Hpr Hnz Hfetch Hdiff.
  rewrite (code_review_handler_valid env req repo pr Hrepo Hne Hpr Hnz).
  unfold run, try_catch, CodeReview.review, bind, await.
  fold fetch. rewrite Hfetch.
  destruct Hdiff as [-> | (text & -> & Hws)]; [reflexivity|].
  rewrite (trim_whitespace _ Hws). simpl.
  now rewrite orb_true_r.
Qed.

Lemma code_review_empty_diff_witness :
  run (CodeReview.handler production review_request)
      (world_of (Some "   ") [] llm_without_suggestions 0.5)
  = (Returned (status_json 400 (VObj [
       ("error", VStr "No diff content available for analysis");
       ("message", VStr "The PR may not have any changes or the repository may not be accessible")])),
     [Awaited (fetchPRDiff "acme/shop" 42 None None None)]).
Proof.
  apply (code_review_empty_diff production review_request _ "acme/shop" 42%Z (Some "   "));
    try reflexivity; try discriminate.
  right. exists "   ". split; [reflexivity|].
  repeat constructor.
Defined.

(** The stages after the diff check, when every collaborator resolves and
    the analysis carries a text. *)
Lemma analyse_run (w : World) (trace : list Event) (repo : string) (pr : Z)
      (req : CodeReview.Request) (diff : string) (analysis : LlmResult) (text : string)
      (suggestionsResponse : LlmResult) :
  let analyze := analyzeCode diff
                   (match CodeReview.analysis_type req with
                    | Some t => t
                    | None => "comprehensive"
                    end) (CodeReview.llm_model req) in
  let suggest := generateResponse (CodeReview.suggestionsPrompt text)
                                  (CodeReview.llm_model req) 1000 in
  let clock := (trace ++ [Awaited analyze] ++ [Awaited suggest])%list in
  let result := CodeReview.result_record analysis text
                  (CodeReview.suggestions_of suggestionsResponse)
                  (builtin w clock Date_toISOString) in
  resolve w trace analyze = Returned analysis ->
  content analysis = Some text ->
  resolve w (trace ++ [Awaited analyze])%list suggest = Returned suggestionsResponse ->
  resolve w (clock ++ [Read Date_toISOString])%list (postReviewComment repo pr result)
  = Returned tt ->
  CodeReview.analyse repo pr req diff w trace
  = (Returned (json result),
     (clock ++ [Read Date_toISOString] ++ [Awaited (postReviewComment repo pr result)])%list).
Proof.
  intros analyze suggest clock result Hanalyze Htext Hsuggest Hpost.
  unfold CodeReview.analyse, receiver, bind, await, read, ret.
  fold analyze. rewrite Hanalyze, Htext. cbn beta iota.
  fold suggest. rewrite Hsuggest. cbn beta iota.
  unfold clock in *. rewrite <- !app_assoc in *. cbn [app] in *.
  fold result. rewrite Hpost. reflexivity.
Qed.

(** C3. Whatever text the analysis carries: when one of the keywords
    security, vulnerability, critical, dangerous, unsafe occurs in it up to
    letter case, the record the code review returns has [risk_level] "high"
    and [status] "changes_requested"; when none occurs, it has [risk_level]
    "low" and [status] "approved". *)
Theorem risk_classifier (env : Env) (req : CodeReview.Request) (w : World)
        (repo : string) (pr : Z) (diff : string) (analysis : LlmResult) (text : string)
        (suggestionsResponse : LlmResult) :
  let keywords := ["security"; "vulnerability"; "critical"; "dangerous"; "unsafe"] in
  let fetch := fetchPRDiff repo pr (CodeReview.diff_url req) (CodeReview.base_sha req)
                           (CodeReview.head_sha req) in
  let analyze := analyzeCode diff
                   (match CodeReview.analysis_type req with
                    | Some t => t
                    | None => "comprehensive"
                    end) (CodeReview.llm_model req) in
  let suggest := generateResponse (CodeReview.suggestionsPrompt text)
                                  (CodeReview.llm_model req) 1000 in
  CodeReview.repository req = Some repo -> repo <> "" ->
  CodeReview.pr_number req = Some pr -> pr <> 0%Z ->
  resolve w [] fetch = Returned (Some diff) ->
  JsString.trim diff <> "" ->
  resolve w [Awaited fetch] analyze = Returned analysis ->
  content analysis = Some text ->
  resolve w [Awaited fetch; Awaited analyze] suggest = Returned suggestionsResponse ->
  (forall trace result, resolve w trace (postReviewComment repo pr result) = Returned tt) ->
  exists record trace,
    run (CodeReview.handler env req) w = (Returned (json (VObj record)), trace)
    /\ own_property record "analysis" = Some (VStr text)
    /\ ((exists keyword, In keyword keywords /\ occurs_ignoring_case keyword text) ->
        own_property record "risk_level" = Some (VStr "high")
        /\ own_property record "status" = Some (VStr "changes_requested"))
    /\ ((forall keyword, In keyword keywords -> ~ occurs_ignoring_case keyword text) ->
        own_property record "risk_level" = Some (VStr "low")
        /\ own_property record "status" = Some (VStr "approved")).
Proof.
  intros keywords fetch analyze suggest Hrepo Hne Hpr Hnz Hfetch Hdiff Hanalyze Htext
         Hsuggest Hpost.
  rewrite (code_review_handler_valid env req repo pr Hrepo Hne Hpr Hnz).
  unfold run, try_catch, CodeReview.review, bind at 1, await at 1.
  fold fetch. rewrite Hfetch.
  rewrite (trim_nonblank_truthy _ Hdiff), (trim_nonblank_length _ Hdiff).
  cbn [negb orb app].
  rewrite (analyse_run w [Awaited fetch] repo pr req diff analysis text suggestionsResponse
             Hanalyze Htext Hsuggest (Hpost _ _)).
  unfold CodeReview.result_record.
  eexists _, _. split; [reflexivity|].
  split; [reflexivity|].
  cbn [own_property String.eqb Ascii.eqb Bool.eqb].
  split.
  - intros Hocc. apply hasHighRisk_spec in Hocc. now rewrite Hocc.
  - intros Hnone.
    destruct (CodeReview.hasHighRisk text) eqn:Hrisk; [|now split].
    apply hasHighRisk_spec in Hrisk. destruct Hrisk as (keyword & Hin & Hocc).
    now elim (Hnone keyword Hin).
Qed.

Lemma risk_classifier_witness :
  exists record trace,
    run (CodeReview.handler production review_request)
        (world_of (Some "+ eval(userInput);") []
                  (fun _ => Returned (llm_result "This change is UNSAFE: eval on user input."))
                  0.5)
    = (Returned (json (VObj record)), trace)
    /\ own_property record "analysis" = Some (VStr "This change is UNSAFE: eval on user input.")
    /\ ((exists keyword,
           In keyword ["security"; "vulnerability"; "critical"; "dangerous"; "unsafe"]
           /\ occurs_ignoring_case keyword "This change is UNSAFE: eval on user input.") ->
        own_property record "risk_level" = Some (VStr "high")
        /\ own_property record "status" = Some (VStr "changes_requested"))
    /\ ((forall keyword,
           In keyword ["security"; "vulnerability"; "critical"; "dangerous"; "unsafe"] ->
           ~ occurs_ignoring_case keyword "This change is UNSAFE: eval on user input.") ->
        own_property record "risk_level" = Some (VStr "low")
        /\ own_property record "status" = Some (VStr "approved")).
Proof.
  apply (risk_classifier production review_request _ "acme/shop" 42%Z "+ eval(userInput);"
           (llm_result "This change is UNSAFE: eval on user input.")
           "This change is UNSAFE: eval on user input."
           (llm_result "This change is UNSAFE: eval on user input."));
    try reflexivity; try (simpl; discriminate).
Defined.

(** The inner [catch] covers a suggestions response without a text. *)
Lemma suggestions_without_content (suggestionsResponse : LlmResult) :
  content suggestionsResponse = None ->
  CodeReview.suggestions_of suggestionsResponse
  = ["Review the analysis for detailed recommendations"].
Proof.
  intros H. unfold CodeReview.suggestions_of. now rewrite H.
Qed.

(** When the suggestions call itself rejects, the route's [catch] answers
    and the stages after it do not run. *)
Lemma analyse_suggestions_rejected (w : World) (trace : list Event) (repo : string) (pr : Z)
      (req : CodeReview.Request) (diff : string) (analysis : LlmResult) (text : string)
      (error : JsError) :
  let analyze := analyzeCode diff
                   (match CodeReview.analysis_type req with
                    | Some t => t
                    | None => "comprehensive"
                    end) (CodeReview.llm_model req) in
  let suggest := generateResponse (CodeReview.suggestionsPrompt text)
                                  (CodeReview.llm_model req) 1000 in
  resolve w trace analyze = Returned analysis ->
  content analysis = Some text ->
  resolve w (trace ++ [Awaited analyze])%list suggest = Thrown error ->
  CodeReview.analyse repo pr req diff w trace
  = (Thrown error, (trace ++ [Awaited analyze] ++ [Awaited suggest])%list).
Proof.
  intros analyze suggest Hanalyze Htext Hsuggest.
  unfold CodeReview.analyse, receiver, bind, await, read, ret.
  fold analyze. rewrite Hanalyze, Htext. cbn beta iota.
  fold suggest. rewrite Hsuggest. now rewrite <- app_assoc.
Qed.

(** C2, evaluated where the claim fails.  The diff is fetched, the analysis
    succeeds, and the second LLM call rejects: the route answers status 500
    with the failure body instead of a decision record, and no review
    comment is posted. *)
Theorem code_review_suggestions_call_rejected :
  run (CodeReview.handler production review_request)
      (world_of (Some "+ const total = price * qty;") [] llm_without_suggestions 0.5)
  = (Returned (status_json 500 (VObj [
       ("error", VStr "Code review failed");
       ("message", VStr "LLM request timed out");
       ("details", VUndefined)])),
     [Awaited (fetchPRDiff "acme/shop" 42 None None None);
      Awaited (analyzeCode "+ const total = price * qty;" "comprehensive" None);
      Awaited (generateResponse
                 (CodeReview.suggestionsPrompt "Looks fine. Consider renaming the helper.")
                 None 1000)]).
Proof. reflexivity. Qed.

(** ** Framework catalog *)

(** C6. The catalog resolves [foo.py] to pytest and [test_foo.py],
    [a/b/Widget.java] to junit and [a/b/WidgetTest.java], and
    [x.unknownext] to generic; and the own entries of the
    extension-to-framework table are exactly js and ts to jest, py to
    pytest, java to junit, go to testing, rb to rspec, php to phpunit. *)
Theorem framework_catalog_resolution :
  FrameworkCatalog.resolve "foo.py" = (VStr "pytest", VStr "test_foo.py")
  /\ FrameworkCatalog.resolve "a/b/Widget.java" = (VStr "junit", VStr "a/b/WidgetTest.java")
  /\ fst (FrameworkCatalog.resolve "x.unknownext") = VStr "generic"
  /\ (forall (ext : string) (framework : jsval),
        own_property FrameworkCatalog.frameworks ext = Some framework
        <-> In (ext, framework)
               [("js", VStr "jest"); ("ts", VStr "jest"); ("py", VStr "pytest");
                ("java", VStr "junit"); ("go", VStr "testing"); ("rb", VStr "rspec");
                ("php", VStr "phpunit")]).
Proof.
  repeat split; try reflexivity.
  - unfold FrameworkCatalog.frameworks. cbn [own_property].
    repeat match goal with
           | |- context [String.eqb ?key ext] =>
               destruct (String.eqb_spec key ext) as [<-|_];
               [intros [= <-]; simpl; tauto|]
           end.
    discriminate.
  - simpl. intros H.
    repeat (destruct H as [[= <- <-]|H]; [reflexivity|]).
    contradiction.
Qed.

(** ** Monitor *)


(** ** Build predictor *)

(** C5. When the changes, the build history, the dependency analysis (if
    requested) and the prediction all resolve, and the prediction's content
    is not parseable as JSON, the route answers with status 200 and a body
    that starts with the fixed default prediction: success probability 75,
    duration "5-8 minutes", the one potential issue, cpu and memory
    "medium", and confidence score 0.7. *)
Theorem build_predictor_default (JSON_parse : string -> option jsval)
        (req : BuildPredictor.Request) (w : World)
        (changes buildHistory dependencies : jsval) (prediction : LlmResult) :
  let repository := BuildPredictor.repository req in
  let commit_sha := BuildPredictor.commit_sha req in
  let branch := BuildPredictor.branch req in
  let included := match BuildPredictor.include_dependencies req with
                  | Some b => b
                  | None => true
                  end in
  let gathered := [Awaited (getRecentChanges repository commit_sha);
                   Awaited (getBuildHistory repository branch)] in
  let analysed := if included
                  then (gathered ++ [Awaited (analyzeDependencies repository commit_sha)])%list
                  else gathered in
  let dependencyAnalysis := if included then dependencies else VNull in
  let predict := predictBuildOutcome changes buildHistory dependencyAnalysis
                                     (BuildPredictor.llm_model req) in
  resolve w [] (getRecentChanges repository commit_sha) = Returned changes ->
  resolve w [Awaited (getRecentChanges repository commit_sha)]
          (getBuildHistory repository branch) = Returned buildHistory ->
  (included = true ->
   resolve w gathered (analyzeDependencies repository commit_sha) = Returned dependencies) ->
  resolve w analysed predict = Returned prediction ->
  JSON_parse (interpolate (content prediction)) = None ->
  run (BuildPredictor.handler JSON_parse req) w
  = (Returned (json (VObj [
       ("success_probability", VNum 75);
       ("estimated_duration", VStr "5-8 minutes");
       ("potential_issues", VArr [VStr "Dependency conflicts possible"]);
       ("resource_requirements", VObj [("cpu", VStr "medium"); ("memory", VStr "medium")]);
       ("confidence_score", VNum 0.7);
       ("commit_sha", of_option_string commit_sha);
       ("branch", of_option_string branch);
       ("model_used", of_option_string (model prediction));
       ("provider", of_option_string (provider prediction));
       ("dependency_analysis", dependencyAnalysis);
       ("timestamp",
        VStr (builtin w (analysed ++ [Awaited predict])%list Date_toISOString))])),
     (analysed ++ [Awaited predict; Read Date_toISOString])%list).
Proof.
  intros repository commit_sha branch included gathered analysed dependencyAnalysis predict
         Hchanges Hhistory Hdependencies Hpredict Hparse.
  unfold run, BuildPredictor.handler, try_catch, bind, await, read, ret.
  fold repository commit_sha branch. rewrite Hchanges. cbn [app].
  rewrite Hhistory. cbn [app]. fold included gathered.
  unfold BuildPredictor.parse_or_default.
  subst analysed dependencyAnalysis predict.
  destruct included.
  - rewrite (Hdependencies eq_refl). rewrite Hpredict, Hparse.
    unfold gathered. rewrite <- !app_assoc. reflexivity.
  - rewrite Hpredict, Hparse. reflexivity.
Qed.

Lemma build_predictor_default_witness :
  run (BuildPredictor.handler parse_literal prediction_request)
      (world_of None [] (fun _ => Returned (llm_result "The build will probably pass.")) 0.5)
  = (Returned (json (VObj [
       ("success_probability", VNum 75);
       ("estimated_duration", VStr "5-8 minutes");
       ("potential_issues", VArr [VStr "Dependency conflicts possible"]);
       ("resource_requirements", VObj [("cpu", VStr "medium"); ("memory", VStr "medium")]);
       ("confidence_score", VNum 0.7);
       ("commit_sha", VStr "0123456789abcdef");
       ("branch", VStr "main");
       ("model_used", VStr "gpt-4");
       ("provider", VStr "openai");
       ("dependency_analysis", VObj []);
       ("timestamp", VStr "2024-01-01T00:00:00.000Z")])),
     [Awaited (getRecentChanges (Some "acme/shop") (Some "0123456789abcdef"));
      Awaited (getBuildHistory (Some "acme/shop") (Some "main"));
      Awaited (analyzeDependencies (Some "acme/shop") (Some "0123456789abcdef"));
      Awaited (predictBuildOutcome (VArr []) (VArr []) (VObj []) None);
      Read Date_toISOString]).
Proof.
  apply (build_predictor_default parse_literal prediction_request
           (world_of None [] (fun _ => Returned (llm_result "The build will probably pass.")) 0.5)
           (VArr []) (VArr []) (VObj []) (llm_result "The build will probably pass."));
    reflexivity.
Defined.

(** ** Vulnerability scan *)

(** Every answer of the scan is the failure body or a record whose
    [total_issues] is the [length] of its [vulnerabilities]. *)
Lemma vulnerability_scan_shape (JSON_parse : string -> option jsval)
      (req : VulnerabilityScan.Request) (w : World) :
  (exists error, fst (run (VulnerabilityScan.handler JSON_parse req) w)
                 = Returned (VulnerabilityScan.failure error))
  \/ (exists repository branch scan_type riskLevel vulnerabilities model_used provider timestamp,
        fst (run (VulnerabilityScan.handler JSON_parse req) w)
        = Returned (json (VObj [
            ("repository", repository);
            ("branch", branch);
            ("scan_type", scan_type);
            ("risk_level", riskLevel);
            ("vulnerabilities", vulnerabilities);
            ("total_issues", length_of vulnerabilities);
            ("model_used", model_used);
            ("provider", provider);
            ("timestamp", timestamp)]))).
Proof.
  unfold run, VulnerabilityScan.handler, try_catch, bind, await, read.
  destruct (resolve w [] _) as [repoContent|error]; [|left; now exists error].
  destruct (resolve w _ _) as [vulnerabilityAnalysis|error]; [|left; now exists error].
  unfold VulnerabilityScan.parse.
  destruct (VulnerabilityScan.structured JSON_parse vulnerabilityAnalysis)
    as [[vulnerabilities riskLevel]|].
  - right. unfold ret. cbv beta iota delta [fst]. now eexists _, _, _, _, _, _, _, _.
  - unfold receiver, bind.
    destruct (content vulnerabilityAnalysis) as [text|].
    + right. unfold ret. cbv beta iota delta [fst]. now eexists _, _, _, _, _, _, _, _.
    + left. unfold throw, ret. cbv beta iota delta [fst]. now eexists.
Qed.

(** C4, as amended.  When the repository content and the analysis resolve
    and the analysis carries a text that fails JSON parsing, the record's
    [risk_level] is "high"
    if the lowercased text contains "critical" or "high risk", else "medium"
    if it contains "medium" or "moderate", else "low", and its
    vulnerabilities list is empty; and in every record the scan returns,
    [total_issues] is the length of the [vulnerabilities] list. *)
Theorem vulnerability_scan_fallback (JSON_parse : string -> option jsval)
        (req : VulnerabilityScan.Request) (w : World) :
  let repository := VulnerabilityScan.repository req in
  let branch := match VulnerabilityScan.branch req with Some b => b | None => "main" end in
  let scan_type := match VulnerabilityScan.scan_type req with
                   | Some t => t
                   | None => "comprehensive"
                   end in
  let fetch := fetchRepositoryContent repository branch in
  (forall (repoContent : jsval) (analysis : LlmResult) (text : string),
     let analyze := analyzeVulnerabilities repoContent scan_type
                                           (VulnerabilityScan.llm_model req) in
     let lowered := JsString.toLowerCase text in
     resolve w [] fetch = Returned repoContent ->
     resolve w [Awaited fetch] analyze = Returned analysis ->
     content analysis = Some text ->
     JSON_parse text = None ->
     run (VulnerabilityScan.handler JSON_parse req) w
     = (Returned (json (VObj [
          ("repository", of_option_string repository);
          ("branch", VStr branch);
          ("scan_type", VStr scan_type);
          ("risk_level",
           VStr (if JsString.includes lowered "critical" || JsString.includes lowered "high risk"
                 then "high"
                 else if JsString.includes lowered "medium"
                         || JsString.includes lowered "moderate"
                 then "medium"
                 else "low"));
          ("vulnerabilities", VArr []);
          ("total_issues", VNum 0);
          ("model_used", of_option_string (model analysis));
          ("provider", of_option_string (provider analysis));
          ("timestamp",
           VStr (builtin w [Awaited fetch; Awaited analyze] Date_toISOString))])),
        [Awaited fetch; Awaited analyze; Read Date_toISOString]))
  /\
  (forall (fields : list (string * jsval)) (items : list jsval),
     fst (run (VulnerabilityScan.handler JSON_parse req) w) = Returned (json (VObj fields)) ->
     own_property fields "vulnerabilities" = Some (VArr items) ->
     own_property fields "total_issues" = Some (VNum (number_of_nat (List.length items)))).
Proof.
  intros repository branch scan_type fetch. split.
  - intros repoContent analysis text analyze lowered Hfetch Hanalyze Htext Hparse.
    unfold run, VulnerabilityScan.handler, try_catch, bind, await, read.
    fold repository branch scan_type fetch. rewrite Hfetch. cbn [app].
    fold analyze. rewrite Hanalyze.
    unfold VulnerabilityScan.parse, VulnerabilityScan.structured.
    rewrite Htext. cbn [interpolate]. rewrite Hparse.
    unfold receiver, bind, ret. reflexivity.
  - intros fields items Hrun Hvulnerabilities.
    destruct (vulnerability_scan_shape JSON_parse req w)
      as [(error & Hshape) | (r & b & s & l & v & m & p & t & Hshape)];
      rewrite Hshape in Hrun.
    + discriminate Hrun.
    + injection Hrun as <-.
      cbn in Hvulnerabilities. injection Hvulnerabilities as ->.
      reflexivity.
Qed.

Lemma vulnerability_scan_fallback_witness :
  run (VulnerabilityScan.handler parse_literal scan_request)
      (world_of None [] (fun _ => Returned (llm_result "Critical issue found")) 0.5)
  = (Returned (json (VObj [
       ("repository", VStr "acme/shop");
       ("branch", VStr "main");
       ("scan_type", VStr "comprehensive");
       ("risk_level", VStr "high");
       ("vulnerabilities", VArr []);
       ("total_issues", VNum 0);
       ("model_used", VStr "gpt-4");
       ("provider", VStr "openai");
       ("timestamp", VStr "2024-01-01T00:00:00.000Z")])),
     [Awaited (fetchRepositoryContent (Some "acme/shop") "main");
      Awaited (analyzeVulnerabilities (VStr "index.js") "comprehensive" None);
      Read Date_toISOString]).
Proof.
  apply (proj1 (vulnerability_scan_fallback parse_literal scan_request
                  (world_of None [] (fun _ => Returned (llm_result "Critical issue found")) 0.5))
               (VStr "index.js") (llm_result "Critical issue found") "Critical issue found");
    reflexivity.
Defined.

(** C4, as stated, fails at an analysis that resolves without a content:
    [JSON.parse] throws on it as on any text that is not JSON, the fallback
    then calls [toLowerCase] on the missing content, and the route answers
    status 500 with [risk_level: 'unknown'] instead of a record. *)
Lemma vulnerability_scan_missing_content :
  parse_literal (interpolate (content {| content := None;
                                         model := Some "gpt-4";
                                         provider := Some "openai" |})) = None
  /\ run (VulnerabilityScan.handler parse_literal scan_request)
         (world_of None [] llm_without_content 0.5)
     = (Returned (status_json 500 (VObj [
          ("error", VStr "Vulnerability scan failed");
          ("message", VStr "Cannot read properties of undefined (reading 'toLowerCase')");
          ("risk_level", VStr "unknown")])),
        [Awaited (fetchRepositoryContent (Some "acme/shop") "main");
         Awaited (analyzeVulnerabilities (VStr "index.js") "comprehensive" None)]).
Proof.
  split; reflexivity.
Qed.

(** ** Binary64 arithmetic of the coverage estimate *)

Module Binary64.

Local Open Scope Z_scope.

Lemma digits2_pos_bounds (p : positive) :
  2 ^ (Zpos (digits2_pos p) - 1) <= Zpos p < 2 ^ Zpos (digits2_pos p).
Proof.
  induction p as [p IH|p IH|]; cbn [digits2_pos].
  - rewrite Pos2Z.inj_succ.
    replace (Z.succ (Zpos (digits2_pos p)) - 1) with (Z.succ (Zpos (digits2_pos p) - 1)) by lia.
    rewrite !Z.pow_succ_r by lia. lia.
  - rewrite Pos2Z.inj_succ.
    replace (Z.succ (Zpos (digits2_pos p)) - 1) with (Z.succ (Zpos (digits2_pos p) - 1)) by lia.
    rewrite !Z.pow_succ_r by lia. lia.
  - simpl. lia.
Qed.

Lemma shr_1_m (mrs : shr_record) :
  0 <= shr_m mrs -> shr_m (shr_1 mrs) = shr_m mrs / 2.
Proof.
  destruct mrs as [m r s]. cbn [shr_m shr_1].
  destruct m as [|p|p]; [reflexivity | | lia].
  intros _. rewrite <- Z.div2_div. now destruct p.
Qed.

Lemma iter_shr_1_m (n : positive) (mrs : shr_record) :
  0 <= shr_m mrs -> shr_m (iter_pos shr_1 n mrs) = shr_m mrs / 2 ^ Zpos n.
Proof.
  revert mrs. induction n as [n IH|n IH|]; intros mrs Hm; cbn [iter_pos].
  - assert (H1 : 0 <= shr_m (shr_1 mrs)).
    { rewrite shr_1_m by assumption. apply Z.div_pos; lia. }
    assert (H2 : 0 <= shr_m (iter_pos shr_1 n (shr_1 mrs))).
    { rewrite IH by assumption. apply Z.div_pos; [assumption | apply Z.pow_pos_nonneg; lia]. }
    rewrite IH, IH, shr_1_m by assumption.
    rewrite !Z.div_div by (try apply Z.pow_pos_nonneg; lia).
    f_equal.
    replace (Zpos n~1) with (1 + Zpos n + Zpos n) by lia.
    rewrite !Z.pow_add_r by lia. lia.
  - assert (H2 : 0 <= shr_m (iter_pos shr_1 n mrs)).
    { rewrite IH by assumption. apply Z.div_pos; [assumption | apply Z.pow_pos_nonneg; lia]. }
    rewrite IH, IH by assumption.
    rewrite !Z.div_div by (try apply Z.pow_pos_nonneg; lia).
    f_equal.
    replace (Zpos n~0) with (Zpos n + Zpos n) by lia.
    rewrite !Z.pow_add_r by lia. lia.
  - rewrite shr_1_m by assumption. reflexivity.
Qed.

(** What [shr] does to a non-negative mantissa and to the exponent. *)
Lemma shr_spec (mrs : shr_record) (e n : Z) :
  0 <= shr_m mrs ->
  shr_m (fst (shr mrs e n)) = shr_m mrs / 2 ^ Z.max 0 n
  /\ snd (shr mrs e n) = e + Z.max 0 n.
Proof.
  intros Hm. destruct n as [|p|p]; cbn [shr fst snd].
  - rewrite Z.max_id. simpl. rewrite Z.div_1_r. lia.
  - rewrite Z.max_r by lia. now rewrite iter_shr_1_m.
  - rewrite Z.max_l by lia. simpl. rewrite Z.div_1_r. lia.
Qed.

Lemma round_nearest_even_bounds (m : Z) (l : location) :
  m <= round_nearest_even m l <= m + 1.
Proof.
  destruct l as [|[| |]]; cbn [round_nearest_even]; try lia.
  destruct (Z.even m); lia.
Qed.

Lemma iter_xO (p d : positive) : Zpos (Pos.iter xO p d) = Zpos p * 2 ^ Zpos d.
Proof.
  induction d as [|d IH] using Pos.peano_ind.
  - simpl. lia.
  - rewrite Pos.iter_succ, Pos2Z.inj_succ, Z.pow_succ_r by lia. lia.
Qed.

Lemma shl_align_fst (mx : positive) (ex ex' : Z) :
  ex' <= ex -> Zpos (fst (shl_align mx ex ex')) = Zpos mx * 2 ^ (ex - ex').
Proof.
  intros Hle. unfold shl_align.
  destruct (ex' - ex) as [|d|d] eqn:Hd; cbn [fst].
  - replace (ex - ex') with 0 by lia. simpl. lia.
  - lia.
  - rewrite iter_xO. f_equal. f_equal. lia.
Qed.

Lemma shr_fexp_spec (m e : Z) :
  0 <= m ->
  let n := Z.max 0 (fexp prec emax (Zdigits2 m + e) - e) in
  shr_m (fst (shr_fexp prec emax m e loc_Exact)) = m / 2 ^ n
  /\ snd (shr_fexp prec emax m e loc_Exact) = e + n.
Proof.
  intros Hm n. unfold shr_fexp.
  apply (shr_spec (shr_record_of_loc m loc_Exact) e _ Hm).
Qed.

Lemma binary_round_aux_nonnegative (mx : positive) (ex : Z) :
  nonnegative_float (binary_round_aux prec emax false (Zpos mx) ex loc_Exact).
Proof.
  unfold binary_round_aux.
  pose proof (shr_fexp_spec (Zpos mx) ex ltac:(lia)) as [H1 _].
  destruct (shr_fexp prec emax (Zpos mx) ex loc_Exact) as [mrs' e'].
  cbn [fst] in H1.
  assert (Hm1 : 0 <= shr_m mrs').
  { rewrite H1. apply Z.div_pos; [lia | apply Z.pow_pos_nonneg; lia]. }
  pose proof (round_nearest_even_bounds (shr_m mrs') (loc_of_shr_record mrs')) as Hrne.
  set (m2 := round_nearest_even (shr_m mrs') (loc_of_shr_record mrs')) in *.
  pose proof (shr_fexp_spec m2 e' ltac:(lia)) as [H2 _].
  destruct (shr_fexp prec emax m2 e' loc_Exact) as [mrs'' e''].
  cbn [fst] in H2.
  assert (Hm3 : 0 <= shr_m mrs'').
  { rewrite H2. apply Z.div_pos; [lia | apply Z.pow_pos_nonneg; lia]. }
  destruct (shr_m mrs'') as [|p|p]; [exact I | | lia].
  destruct (e'' <=? emax - prec); exact I.
Qed.

(** Rounding a value that is at least the normal number [m0 * 2^e0] gives
    at least that number. *)
Lemma binary_round_lower (m0 M : positive) (e0 ez : Z) :
  Zpos (digits2_pos m0) = prec ->
  emin < e0 ->
  ez <= e0 ->
  Zpos m0 * 2 ^ (e0 - ez) <= Zpos M ->
  SFleb (S754_finite false m0 e0) (binary_round prec emax false M ez) = true.
Proof.
  intros Hd0 Hmin Hez Hle.
  assert (Hprec : prec = 53) by reflexivity.
  assert (Hemin : emin = -1074) by reflexivity.
  assert (Hhalf : 0 < 2 ^ (prec - 1)) by (apply Z.pow_pos_nonneg; lia).
  assert (Hdouble : 2 ^ prec = 2 * 2 ^ (prec - 1)) by reflexivity.
  assert (Hbig : 2 <= 2 ^ (prec - 1)) by (apply Z.leb_le; reflexivity).
  pose proof (digits2_pos_bounds m0) as Hb0. rewrite Hd0 in Hb0.
  pose proof (digits2_pos_bounds M) as HbM.
  set (d := Zpos (digits2_pos M)) in *.
  assert (Hpow : 0 < 2 ^ (e0 - ez)) by (apply Z.pow_pos_nonneg; lia).
  assert (Hd : prec + (e0 - ez) <= d).
  { apply Z.nlt_ge. intros Hlt.
    assert (H : 2 ^ d <= 2 ^ (prec - 1 + (e0 - ez))) by (apply Z.pow_le_mono_r; lia).
    rewrite Z.pow_add_r in H by lia. nia. }
  unfold binary_round.
  assert (Hfexp : fexp prec emax (d + ez) = d + ez - prec).
  { unfold fexp. fold emin. lia. }
  fold d. rewrite Hfexp.
  assert (Halign : shl_align M ez (d + ez - prec) = (M, ez)).
  { unfold shl_align. destruct (d + ez - prec - ez) eqn:E; try reflexivity. lia. }
  rewrite Halign.
  unfold binary_round_aux.
  pose proof (shr_fexp_spec (Zpos M) ez ltac:(lia)) as [H1 He1].
  cbn [Zdigits2] in H1, He1. fold d in H1, He1. rewrite Hfexp in H1, He1.
  replace (Z.max 0 (d + ez - prec - ez)) with (d - prec) in H1, He1 by lia.
  destruct (shr_fexp prec emax (Zpos M) ez loc_Exact) as [mrs' e'].
  cbn [fst snd] in H1, He1.
  assert (Hsplit : 2 ^ d = 2 ^ (d - prec) * 2 ^ prec).
  { rewrite <- Z.pow_add_r by lia. f_equal. lia. }
  assert (Hsplit' : 2 ^ (d - 1) = 2 ^ (d - prec) * 2 ^ (prec - 1)).
  { rewrite <- Z.pow_add_r by lia. f_equal. lia. }
  assert (Hn : 0 < 2 ^ (d - prec)) by (apply Z.pow_pos_nonneg; lia).
  assert (Hm1 : 2 ^ (prec - 1) <= shr_m mrs' < 2 ^ prec).
  { rewrite H1. split.
    - apply Z.div_le_lower_bound; lia.
    - apply Z.div_lt_upper_bound; lia. }
  assert (Hm1' : e' = e0 -> Zpos m0 <= shr_m mrs').
  { intros He. rewrite H1. apply Z.div_le_lower_bound; [lia|].
    replace (d - prec) with (e0 - ez) by lia. lia. }
  pose proof (round_nearest_even_bounds (shr_m mrs') (loc_of_shr_record mrs')) as Hrne.
  set (m2 := round_nearest_even (shr_m mrs') (loc_of_shr_record mrs')) in *.
  assert (Hm2 : 2 ^ (prec - 1) <= m2 <= 2 ^ prec) by lia.
  pose proof (shr_fexp_spec m2 e' ltac:(lia)) as [H2 He2].
  destruct (shr_fexp prec emax m2 e' loc_Exact) as [mrs'' e''].
  cbn [fst snd] in H2, He2.
  assert (Hd2 : prec <= Zdigits2 m2 <= prec + 1).
  { destruct m2 as [|p2|p2]; try lia.
    cbn [Zdigits2]. pose proof (digits2_pos_bounds p2) as Hb2.
    split.
    - apply Z.nlt_ge. intros Hlt.
      assert (2 ^ Zpos (digits2_pos p2) <= 2 ^ (prec - 1)) by (apply Z.pow_le_mono_r; lia).
      lia.
    - apply Z.nlt_ge. intros Hlt.
      assert (H : 2 ^ (prec + 1) <= 2 ^ (Zpos (digits2_pos p2) - 1))
        by (apply Z.pow_le_mono_r; lia).
      rewrite Z.pow_add_r in H by lia. simpl (2 ^ 1) in H. lia. }
  assert (Hk : Z.max 0 (fexp prec emax (Zdigits2 m2 + e') - e') = Zdigits2 m2 - prec).
  { unfold fexp. fold emin. lia. }
  rewrite Hk in H2, He2.
  assert (Hm3 : 0 < shr_m mrs'' /\ (e'' = e0 -> Zpos m0 <= shr_m mrs'')).
  { rewrite H2.
    assert (Zdigits2 m2 - prec = 0 \/ Zdigits2 m2 - prec = 1) as [Hz | Hz] by lia;
      rewrite Hz in *.
    - simpl (2 ^ 0). rewrite Z.div_1_r. split; [lia|].
      intros He. assert (He' : e' = e0) by lia. specialize (Hm1' He'). lia.
    - split.
      + apply Z.div_str_pos. simpl (2 ^ 1). lia.
      + intros He. lia. }
  destruct Hm3 as [Hpos Hge].
  destruct (shr_m mrs'') as [|m3|m3]; try lia.
  destruct (e'' <=? emax - prec); [|reflexivity].
  unfold SFleb, SFcompare.
  destruct (Z.compare_spec e0 e'') as [Heq|Hlt|Hgt]; try reflexivity.
  - specialize (Hge (eq_sym Heq)).
    fold (Pos.compare m0 m3).
    destruct (Pos.compare_spec m0 m3); try reflexivity. lia.
  - lia.
Qed.

Lemma SFltb_leb (a b : spec_float) : SFltb a b = true -> SFleb a b = true.
Proof.
  unfold SFltb, SFleb. destruct (SFcompare a b) as [[| |]|]; congruence.
Qed.

Lemma SFeqb_refl (v : spec_float) : v <> S754_nan -> SFeqb v v = true.
Proof.
  unfold SFeqb. destruct v as [s|s| |s m e]; cbn [SFcompare]; intros Hnan.
  - reflexivity.
  - now destruct s.
  - now elim Hnan.
  - destruct s; rewrite Z.compare_refl; fold (Pos.compare m m);
      now rewrite Pos.compare_refl.
Qed.

Lemma SFeqb_zero (v : spec_float) :
  SFeqb v (S754_zero false) = true -> exists s, v = S754_zero s.
Proof.
  unfold SFeqb. destruct v as [s|s| |s m e]; cbn [SFcompare].
  - intros _. now exists s.
  - destruct s; discriminate.
  - discriminate.
  - destruct s; discriminate.
Qed.

Lemma Prim2SF_85 : Prim2SF 85 = S754_finite false 5981343255101440 (-46).
Proof. reflexivity. Qed.

Lemma add_85_lower (v : spec_float) :
  nonnegative_float v -> SFleb (Prim2SF 85) (SF64add (Prim2SF 85) v) = true.
Proof.
  rewrite Prim2SF_85. unfold SF64add.
  destruct v as [s|[|]| |[|] m e]; cbn [nonnegative_float]; intros Hv;
    try contradiction; try reflexivity.
  cbn [SFadd cond_Zopp Z.add binary_normalize].
  apply binary_round_lower.
  - reflexivity.
  - reflexivity.
  - apply Z.le_min_l.
  - rewrite Pos2Z.inj_add, shl_align_fst by apply Z.le_min_l. lia.
Qed.

Lemma mul_10_nonnegative (random : float) :
  (0 <=? random)%float = true -> nonnegative_float (Prim2SF (random * 10)%float).
Proof.
  rewrite leb_spec, mul_spec.
  change (Prim2SF 0) with (S754_zero false).
  change (Prim2SF 10) with (S754_finite false 5629499534213120 (-49)).
  unfold SF64mul.
  destruct (Prim2SF random) as [s|[|]| |[|] m e]; cbn; intros H;
    try discriminate; try exact I.
  apply binary_round_aux_nonnegative.
Qed.

End Binary64.

(** ** Test writer *)

(** [Math.min(85 + random * 10, 95)] lies between 85 and 95, both
    included, for every draw that is at least zero. *)
Lemma coverage_estimate_bounds (random : float) :
  (0 <=? random)%float = true ->
  (85 <=? TestWriter.coverage_estimate random)%float = true
  /\ (TestWriter.coverage_estimate random <=? 95)%float = true.
Proof.
  intros Hrandom.
  unfold TestWriter.coverage_estimate, Math_min.
  set (estimate := (85 + random * 10)%float).
  assert (Hlower : SFleb (Prim2SF 85) (Prim2SF estimate) = true).
  { unfold estimate. rewrite add_spec.
    apply Binary64.add_85_lower, Binary64.mul_10_nonnegative, Hrandom. }
  assert (Hnan : Prim2SF estimate <> S754_nan).
  { intros Heq. rewrite Heq in Hlower. discriminate Hlower. }
  assert (Hnot_nan : PrimFloat.is_nan estimate = false).
  { unfold PrimFloat.is_nan. rewrite eqb_spec, (Binary64.SFeqb_refl _ Hnan). reflexivity. }
  rewrite Hnot_nan.
  change (PrimFloat.is_nan 95) with false. cbn [orb].
  destruct (PrimFloat.ltb estimate 95) eqn:Hbelow.
  - split; [now rewrite leb_spec|].
    rewrite leb_spec. apply Binary64.SFltb_leb. now rewrite <- ltb_spec.
  - destruct (PrimFloat.ltb 95 estimate); [now split|].
    destruct (PrimFloat.is_zero estimate) eqn:Hzero; [|now split].
    unfold PrimFloat.is_zero in Hzero. rewrite eqb_spec in Hzero.
    change (Prim2SF 0) with (S754_zero false) in Hzero.
    destruct (Binary64.SFeqb_zero _ Hzero) as [s Hs].
    rewrite Hs in Hlower. discriminate Hlower.
Qed.

(** C9, as amended.  When every draw of the random source lies in
    [[0, 1)], the [coverage_estimate] of every record the test writer
    returns is at least 85 and at most 95. *)
Theorem test_writer_coverage_estimate (req : TestWriter.Request) (w : World)
        (fields : list (string * jsval)) :
  (forall trace : list Event,
     (0 <=? builtin w trace Math_random)%float = true
     /\ (builtin w trace Math_random <? 1)%float = true) ->
  fst (run (TestWriter.handler req) w) = Returned (json (VObj fields)) ->
  exists estimate : float,
    own_property fields "coverage_estimate" = Some (VNum estimate)
    /\ (85 <=? estimate)%float = true
    /\ (estimate <=? 95)%float = true.
Proof.
  intros Hrandom.
  unfold run, TestWriter.handler, try_catch.
  destruct (TestWriter.repository req) as [repo|]; [|discriminate].
  destruct (TestWriter.pr_number req) as [pr|]; [|discriminate].
  destruct (negb (JsString.truthy repo) || negb (negb (pr =? 0)%Z)); [discriminate|].
  unfold TestWriter.write_tests, bind, await.
  destruct (resolve w [] _) as [filesContent|error]; [|discriminate].
  destruct (TestWriter.generate req filesContent 0 [] w _)
    as [[[totalTestsGenerated generatedTests]|error] generated]; [|discriminate].
  destruct (TestWriter.create repo generatedTests w generated) as [[[]|error] created];
    [|discriminate].
  unfold read, ret. cbn [fst].
  intros [= <-].
  exists (TestWriter.coverage_estimate (builtin w created Math_random)).
  split; [reflexivity|].
  apply coverage_estimate_bounds, Hrandom.
Qed.

Lemma test_writer_coverage_estimate_witness :
  exists estimate : float,
    own_property [("tests_generated", VNum 1);
                  ("test_files", VArr [VStr "src/cart.test.js"]);
                  ("coverage_estimate", VNum 90);
                  ("timestamp", VStr "2024-01-01T00:00:00.000Z")]
                 "coverage_estimate" = Some (VNum estimate)
    /\ (85 <=? estimate)%float = true
    /\ (estimate <=? 95)%float = true.
Proof.
  apply (test_writer_coverage_estimate tests_request
           (world_of None changed_files_example
                     (fun _ => Returned (llm_result "test('total', () => {});")) 0.5));
    [intros trace; split; reflexivity | reflexivity].
Defined.

(** C9, as stated, fails at the draw [1 - 2^-52]: the product
    [random * 10] rounds to [10 - 2^-49] and the sum with 85 rounds to 95,
    so the returned estimate is 95 and is not strictly below 95. *)
Lemma test_writer_coverage_reaches_95 :
  let random := 0x1.ffffffffffffep-1%float in
  (0 <=? random)%float = true
  /\ (random <? 1)%float = true
  /\ run (TestWriter.handler tests_request)
         (world_of None changed_files_example
                   (fun _ => Returned (llm_result "test('total', () => {});")) random)
     = (Returned (json (VObj [
          ("tests_generated", VNum 1);
          ("test_files", VArr [VStr "src/cart.test.js"]);
          ("coverage_estimate", VNum 95);
          ("timestamp", VStr "2024-01-01T00:00:00.000Z")])),
        [Awaited (fetchChangedFiles "acme/shop" 42 None);
         Awaited (generateTests "export const total = 0;" (VStr "jest") None);
         Awaited (createTestFile "acme/shop" (VStr "src/cart.test.js")
                                 (Some "test('total', () => {});"));
         Read Math_random;
         Read Date_toISOString])
  /\ (95 <? 95)%float = false.
Proof. repeat split. Qed.

(** * Further properties of the routes *)

(** ** AccessGate: who gets through *)

Lemma option_string_eqb_true (a : string) (b : option string) :
  option_string_eqb a b = true -> b = Some a.
Proof.
  destruct b as [s|]; simpl; [|discriminate].
  intros H. apply String.eqb_eq in H. now subst.
Qed.

Lemma startsWith_bearer (header : string) :
  JsString.startsWith header "Bearer " = true ->
  header = "Bearer " ++ JsString.substring_from 7 header.
Proof.
  intros H. destruct (startsWith_inv _ _ H) as [rest ->]. reflexivity.
Qed.

(** X1. The gate calls [next()] only for a bearer header whose credential is
    not blank and either equals the shared secret, with the system identity,
    or passes signature verification, with the verified claims. *)
Theorem access_granted_only_on_secret_or_signature
        (jwt_verify : string -> option string -> Outcome jsval)
        (env : Env) (authHeader : option string) (user : jsval) :
  AccessGate.authMiddleware jwt_verify env authHeader = AccessGate.Next user ->
  exists token,
    authHeader = Some ("Bearer " ++ token)
    /\ JsString.trim token <> ""
    /\ ((MCP_SERVER_TOKEN env = Some token /\ user = AccessGate.system_identity)
        \/ jwt_verify token (JWT_SECRET env) = Returned user).
Proof.
  unfold AccessGate.authMiddleware, AccessGate.authenticate.
  destruct authHeader as [header|]; [|discriminate].
  destruct (JsString.truthy header); [|discriminate]. cbn [negb orb].
  destruct (JsString.startsWith header "Bearer ") eqn:Hscheme; [|discriminate].
  cbn [negb].
  set (token := JsString.substring_from 7 header).
  destruct (JsString.truthy token); [|discriminate]. cbn [negb orb].
  destruct (String.length (JsString.trim token) =? 0)%nat eqn:Hblank; [discriminate|].
  assert (Htrim : JsString.trim token <> "").
  { intros Heq. rewrite Heq in Hblank. discriminate Hblank. }
  intros H. exists token. split; [f_equal; now apply startsWith_bearer|].
  split; [exact Htrim|].
  destruct (is_development env && option_string_eqb token (MCP_SERVER_TOKEN env)) eqn:Hdev.
  - apply andb_true_iff in Hdev. destruct Hdev as [_ Hsecret].
    injection H as <-. left. split; [now apply option_string_eqb_true | reflexivity].
  - destruct (jwt_verify token (JWT_SECRET env)) as [decoded|jwtError] eqn:Hverify.
    + injection H as <-. now right.
    + destruct (option_string_eqb token (MCP_SERVER_TOKEN env)) eqn:Hsecret; [|discriminate H].
      injection H as <-. left. split; [now apply option_string_eqb_true | reflexivity].
Qed.

Lemma access_granted_only_on_secret_or_signature_witness :
  exists token,
    Some "Bearer signed.jwt.token" = Some ("Bearer " ++ token)
    /\ JsString.trim token <> ""
    /\ ((MCP_SERVER_TOKEN production = Some token /\ verified_user = AccessGate.system_identity)
        \/ accept_signed token (JWT_SECRET production) = Returned verified_user).
Proof.
  apply (access_granted_only_on_secret_or_signature accept_signed production
           (Some "Bearer signed.jwt.token") verified_user).
  reflexivity.
Defined.

(** X2. Whenever the gate answers itself, the status is 401. *)
Theorem access_denied_is_401 (jwt_verify : string -> option string -> Outcome jsval)
        (env : Env) (authHeader : option string) (r : Response) :
  AccessGate.authMiddleware jwt_verify env authHeader = AccessGate.Reply r ->
  status r = 401%Z.
Proof.
  unfold AccessGate.authMiddleware, AccessGate.authenticate.
  destruct authHeader as [header|]; [|now intros [= <-]].
  destruct (negb (JsString.truthy header) || negb (JsString.startsWith header "Bearer "));
    [now intros [= <-]|].
  destruct (negb (JsString.truthy (JsString.substring_from 7 header))
            || (String.length (JsString.trim (JsString.substring_from 7 header)) =? 0)%nat);
    [now intros [= <-]|].
  destruct (is_development env && _); [discriminate|].
  destruct (jwt_verify _ _); [discriminate|].
  destruct (option_string_eqb _ _); [discriminate|].
  now intros [= <-].
Qed.

Lemma access_denied_is_401_witness :
  status (AccessGate.missing_credential None) = 401%Z.
Proof.
  apply (access_denied_is_401 reject_all production None). reflexivity.
Defined.

(** X3. A credential that is not blank and equals the shared secret is let
    through in every environment and whatever the verifier does; the
    identity is the system identity unless, outside development, the
    credential also passes signature verification. *)
Theorem shared_secret_granted_in_every_environment
        (jwt_verify : string -> option string -> Outcome jsval)
        (env : Env) (credential : string) :
  JsString.trim credential <> "" ->
  MCP_SERVER_TOKEN env = Some credential ->
  exists user,
    AccessGate.authMiddleware jwt_verify env (Some ("Bearer " ++ credential))
    = AccessGate.Next user
    /\ (user = AccessGate.system_identity
        \/ (is_development env = false
            /\ jwt_verify credential (JWT_SECRET env) = Returned user)).
Proof.
  intros Hblank Hsecret.
  unfold AccessGate.authMiddleware.
  rewrite (authenticate_bearer _ _ _ Hblank), Hsecret.
  cbn [option_string_eqb]. rewrite String.eqb_refl, andb_true_r.
  destruct (is_development env) eqn:Hdev.
  - eexists. split; [reflexivity | now left].
  - destruct (jwt_verify credential (JWT_SECRET env)) as [decoded|jwtError] eqn:Hverify.
    + eexists. split; [reflexivity | now right].
    + eexists. split; [reflexivity | now left].
Qed.

Lemma shared_secret_granted_in_every_environment_witness :
  exists user,
    AccessGate.authMiddleware reject_all production (Some "Bearer s3cret")
    = AccessGate.Next user
    /\ (user = AccessGate.system_identity
        \/ (is_development production = false
            /\ reject_all "s3cret" (JWT_SECRET production) = Returned user)).
Proof.
  apply (shared_secret_granted_in_every_environment reject_all production "s3cret");
    [simpl; discriminate | reflexivity].
Defined.

(** X4. A credential that is not blank and passes signature verification
    is let through with the verified claims, unless the development flag is
    set and the credential is the shared secret. *)
Theorem verified_token_identity (jwt_verify : string -> option string -> Outcome jsval)
        (env : Env) (credential : string) (claims : jsval) :
  JsString.trim credential <> "" ->
  is_development env && option_string_eqb credential (MCP_SERVER_TOKEN env) = false ->
  jwt_verify credential (JWT_SECRET env) = Returned claims ->
  AccessGate.authMiddleware jwt_verify env (Some ("Bearer " ++ credential))
  = AccessGate.Next claims.
Proof.
  intros Hblank Hdev Hverify.
  unfold AccessGate.authMiddleware.
  now rewrite (authenticate_bearer _ _ _ Hblank), Hdev, Hverify.
Qed.

Lemma verified_token_identity_witness :
  AccessGate.authMiddleware accept_signed development (Some "Bearer signed.jwt.token")
  = AccessGate.Next verified_user.
Proof.
  apply (verified_token_identity accept_signed development "signed.jwt.token" verified_user);
    [simpl; discriminate | reflexivity | reflexivity].
Defined.

(** ** Code review: validation, failures and the posted record *)

(** X5. A code-review request without a repository, or with one and without
    a PR number, is answered with status 400 and the name of the missing
    parameter, the repository first, before any collaborator call. *)
Theorem code_review_missing_parameters (env : Env) (req : CodeReview.Request) (w : World) :
  (truthy_opt (CodeReview.repository req) = false ->
   run (CodeReview.handler env req) w
   = (Returned (status_json 400 (VObj [
        ("error", VStr "Missing required parameter: repository");
        ("required_parameters", VArr [VStr "repository"; VStr "pr_number"])])),
      []))
  /\ (truthy_opt (CodeReview.repository req) = true ->
      CodeReview.pr_number req = None \/ CodeReview.pr_number req = Some 0%Z ->
      run (CodeReview.handler env req) w
      = (Returned (status_json 400 (VObj [
           ("error", VStr "Missing required parameter: pr_number");
           ("required_parameters", VArr [VStr "repository"; VStr "pr_number"])])),
         [])).
Proof.
  unfold run, CodeReview.handler, try_catch, truthy_opt.
  destruct (CodeReview.repository req) as [repo|]; split; try discriminate; try reflexivity.
  - intros ->. reflexivity.
  - intros -> [-> | ->]; reflexivity.
Qed.

Lemma code_review_missing_parameters_witness :
  run (CodeReview.handler production
         {| CodeReview.repository := Some "acme/shop";
            CodeReview.pr_number := Some 0%Z;
            CodeReview.diff_url := None;
            CodeReview.base_sha := None;
            CodeReview.head_sha := None;
            CodeReview.llm_model := None;
            CodeReview.analysis_type := None |})
      offline_world
  = (Returned (status_json 400 (VObj [
       ("error", VStr "Missing required parameter: pr_number");
       ("required_parameters", VArr [VStr "repository"; VStr "pr_number"])])),
     []).
Proof.
  apply (proj2 (code_review_missing_parameters production _ offline_world));
    [reflexivity | now right].
Defined.

Lemma code_review_failure_status (env : Env) (error : JsError) :
  status (CodeReview.failure env error) <> 200%Z.
Proof.
  unfold CodeReview.failure.
  destruct (JsString.includes (message error) "404"); [discriminate|].
  destruct (JsString.includes (message error) "401" || JsString.includes (message error) "403");
    discriminate.
Qed.

Lemma code_review_success_trace (env : Env) (req : CodeReview.Request) (w : World)
      (record : jsval) (trace : list Event) :
  run (CodeReview.handler env req) w = (Returned (json record), trace) ->
  exists repo pr before,
    trace = (before ++ [Awaited (postReviewComment repo pr record)])%list.
Proof.
  assert (Hfail : forall error events,
            ret (CodeReview.failure env error) w events = (Returned (json record), trace) ->
            False).
  { intros error events [= H _]. apply (code_review_failure_status env error).
    now rewrite H. }
  unfold run, CodeReview.handler, try_catch.
  destruct (CodeReview.repository req) as [repo|]; [|discriminate].
  destruct (negb (JsString.truthy repo)); [discriminate|].
  destruct (CodeReview.pr_number req) as [pr|]; [|discriminate].
  destruct (pr =? 0)%Z; [discriminate|].
  unfold CodeReview.review, bind at 1, await at 1.
  destruct (resolve w [] _) as [[diff|]|error];
    [|discriminate | intros H; now elim (Hfail _ _ H)].
  destruct (negb (JsString.truthy diff) || (String.length (JsString.trim diff) =? 0)%nat);
    [discriminate|].
  unfold CodeReview.analyse, receiver, bind, await, read, ret, throw.
  destruct (resolve w _ _) as [analysis|error]; [|intros H; now elim (Hfail _ _ H)].
  destruct (content analysis) as [text|]; [|intros H; now elim (Hfail _ _ H)].
  destruct (resolve w _ _) as [suggestionsResponse|error];
    [|intros H; now elim (Hfail _ _ H)].
  destruct (resolve w _ _) as [[]|error]; [|intros H; now elim (Hfail _ _ H)].
  intros [= <- <-].
  eexists repo, pr, [_; _; _; _]. reflexivity.
Qed.

(** X6. When the code review answers with status 200, the last thing it
    did was to post that same record as the review comment. *)
Theorem code_review_posts_returned_record (env : Env) (req : CodeReview.Request) (w : World)
        (record : jsval) :
  fst (run (CodeReview.handler env req) w) = Returned (json record) ->
  exists repo pr before,
    snd (run (CodeReview.handler env req) w)
    = (before ++ [Awaited (postReviewComment repo pr record)])%list.
Proof.
  destruct (run (CodeReview.handler env req) w) as [outcome trace] eqn:Hrun.
  cbn [fst snd]. intros ->.
  exact (code_review_success_trace env req w record trace Hrun).
Qed.

Lemma code_review_posts_returned_record_witness :
  exists repo pr before,
    snd (run (CodeReview.handler production review_request)
             (world_of (Some "+ pickle.loads(body)") [] llm_review 0.5))
    = (before ++ [Awaited (postReviewComment repo pr
         (VObj [
            ("status", VStr "changes_requested");
            ("analysis", VStr "The change introduces unsafe deserialization of request bodies.");
            ("risk_level", VStr "high");
            ("suggestions", VArr [VStr "Validate the payload"; VStr "Add a regression test"]);
            ("model_used", VStr "gpt-4");
            ("provider", VStr "openai");
            ("timestamp", VStr "2024-01-01T00:00:00.000Z")]))])%list.
Proof.
  apply (code_review_posts_returned_record production review_request
           (world_of (Some "+ pickle.loads(body)") [] llm_review 0.5)).
  reflexivity.
Defined.

(** X7. When the diff fetch rejects, the code review stops there and maps
    the error message to the status: 404 when it mentions 404, else 401
    when it mentions 401 or 403, else 500 with the message itself; the
    stack is part of the body in development only. *)
Theorem code_review_fetch_rejected (env : Env) (req : CodeReview.Request) (w : World)
        (repo : string) (pr : Z) (error : JsError) :
  let fetch := fetchPRDiff repo pr (CodeReview.diff_url req) (CodeReview.base_sha req)
                           (CodeReview.head_sha req) in
  let mentions := JsString.includes (message error) in
  CodeReview.repository req = Some repo -> repo <> "" ->
  CodeReview.pr_number req = Some pr -> pr <> 0%Z ->
  resolve w [] fetch = Thrown error ->
  run (CodeReview.handler env req) w
  = (Returned (status_json
       (if mentions "404" then 404 else if mentions "401" || mentions "403" then 401 else 500)
       (VObj [
          ("error", VStr "Code review failed");
          ("message",
           VStr (if mentions "404"
                 then "Repository or PR not found. Please check the repository name and PR number."
                 else if mentions "401" || mentions "403"
                 then "Authentication failed. Please check your GitHub token permissions."
                 else message error));
          ("details",
           if option_string_eqb "development" (NODE_ENV env)
           then VStr (stack error) else VUndefined)])),
     [Awaited fetch]).
Proof.
  intros fetch mentions Hrepo Hne Hpr Hnz Hfetch.
  rewrite (code_review_handler_valid env req repo pr Hrepo Hne Hpr Hnz).
  unfold run, try_catch, CodeReview.review, bind, await.
  fold fetch. rewrite Hfetch.
  unfold ret, CodeReview.failure. fold mentions. unfold is_development.
  destruct (mentions "404"); [reflexivity|].
  destruct (mentions "401" || mentions "403"); reflexivity.
Qed.

Lemma code_review_fetch_rejected_witness :
  run (CodeReview.handler production review_request) (failing_world not_found)
  = (Returned (status_json 404 (VObj [
       ("error", VStr "Code review failed");
       ("message",
        VStr "Repository or PR not found. Please check the repository name and PR number.");
       ("details", VUndefined)])),
     [Awaited (fetchPRDiff "acme/shop" 42 None None None)]).
Proof.
  apply (code_review_fetch_rejected production review_request (failing_world not_found)
           "acme/shop" 42%Z not_found);
    try reflexivity; discriminate.
Defined.

Lemma append_assoc (a b c : string) : (a ++ b) ++ c = a ++ b ++ c.
Proof.
  induction a as [|x a IH]; simpl; [reflexivity | now rewrite IH].
Qed.

Lemma In_firstn {A : Type} (n : nat) (l : list A) (x : A) : In x (firstn n l) -> In x l.
Proof.
  intros H. rewrite <- (firstn_skipn n l). apply in_or_app. now left.
Qed.

(** X8. The suggestions of a review are at most five, and none of them is
    blank. *)
Theorem suggestions_bounded (suggestionsResponse : LlmResult) :
  List.length (CodeReview.suggestions_of suggestionsResponse) <= 5
  /\ Forall (fun s => JsString.trim s <> "") (CodeReview.suggestions_of suggestionsResponse).
Proof.
  unfold CodeReview.suggestions_of.
  destruct (content suggestionsResponse) as [text|].
  - split; [apply firstn_le_length|].
    apply Forall_forall. intros s Hin.
    apply In_firstn, filter_In in Hin. destruct Hin as [_ Hlen].
    intros Heq. rewrite Heq in Hlen. discriminate Hlen.
  - split; [simpl; lia|].
    repeat constructor. discriminate.
Qed.

(** X9. Text around an analysis never lowers its risk: when an analysis is
    high risk, so is every text that contains it. *)
Theorem hasHighRisk_monotone (before analysis after : string) :
  CodeReview.hasHighRisk analysis = true ->
  CodeReview.hasHighRisk (before ++ analysis ++ after) = true.
Proof.
  intros H. apply hasHighRisk_spec in H. destruct H as (keyword & Hin & Hocc).
  apply hasHighRisk_spec. exists keyword. split; [exact Hin|].
  destruct Hocc as (a & matched & b & -> & Hm).
  exists (before ++ a), matched, (b ++ after). split; [|exact Hm].
  now rewrite !append_assoc.
Qed.

Lemma hasHighRisk_monotone_witness :
  CodeReview.hasHighRisk ("Summary: " ++ "Critical bug" ++ " in parser.") = true.
Proof.
  apply (hasHighRisk_monotone "Summary: " "Critical bug" " in parser."). reflexivity.
Defined.

(** X10. A diff that is not blank reaches the analysis as it was fetched,
    untrimmed, with the requested analysis type or "comprehensive". *)
Theorem code_review_analyses_fetched_diff (env : Env) (req : CodeReview.Request) (w : World)
        (repo : string) (pr : Z) (diff : string) :
  let fetch := fetchPRDiff repo pr (CodeReview.diff_url req) (CodeReview.base_sha req)
                           (CodeReview.head_sha req) in
  let analyze := analyzeCode diff
                   (match CodeReview.analysis_type req with
                    | Some t => t
                    | None => "comprehensive"
                    end) (CodeReview.llm_model req) in
  CodeReview.repository req = Some repo -> repo <> "" ->
  CodeReview.pr_number req = Some pr -> pr <> 0%Z ->
  resolve w [] fetch = Returned (Some diff) ->
  JsString.trim diff <> "" ->
  exists later,
    snd (run (CodeReview.handler env req) w) = (Awaited fetch :: Awaited analyze :: later).
Proof.
  intros fetch analyze Hrepo Hne Hpr Hnz Hfetch Hdiff.
  rewrite (code_review_handler_valid env req repo pr Hrepo Hne Hpr Hnz).
  unfold run, try_catch, CodeReview.review, bind at 1, await at 1.
  fold fetch. rewrite Hfetch.
  rewrite (trim_nonblank_truthy _ Hdiff), (trim_nonblank_length _ Hdiff).
  cbn [negb orb app].
  unfold CodeReview.analyse, receiver, bind, await, read, ret, throw.
  fold analyze. clear Hfetch.
  destruct (resolve w _ analyze) as [analysis|error]; [|eexists; reflexivity].
  destruct (content analysis) as [text|]; [|eexists; reflexivity].
  destruct (resolve w _ _) as [suggestionsResponse|error]; [|eexists; reflexivity].
  destruct (resolve w _ _) as [[]|error]; eexists; reflexivity.
Qed.

Lemma code_review_analyses_fetched_diff_witness :
  exists later,
    snd (run (CodeReview.handler production review_request)
             (world_of (Some "  + x = 1  ") [] llm_review 0.5))
    = (Awaited (fetchPRDiff "acme/shop" 42 None None None)
       :: Awaited (analyzeCode "  + x = 1  " "comprehensive" None) :: later).
Proof.
  apply (code_review_analyses_fetched_diff production review_request
           (world_of (Some "  + x = 1  ") [] llm_review 0.5) "acme/shop" 42%Z "  + x = 1  ");
    try reflexivity; try discriminate.
Defined.

(** ** Framework catalog: extensions and file names *)

Lemma free_of_cons (c x : ascii) (s : string) :
  free_of c (String x s) <-> x <> c /\ free_of c s.
Proof.
  unfold free_of. simpl. tauto.
Qed.

Lemma split_not_nil (sep : ascii) (s : string) : JsString.split sep s <> [].
Proof.
  destruct s as [|c s]; simpl; [discriminate|].
  destruct (Ascii.eqb c sep); [discriminate|].
  destruct (JsString.split sep s); discriminate.
Qed.

Lemma split_app_sep (sep : ascii) (a b : string) :
  JsString.split sep (a ++ String sep b)
  = (JsString.split sep a ++ JsString.split sep b)%list.
Proof.
  induction a as [|c a IH]; simpl.
  - now rewrite Ascii.eqb_refl.
  - destruct (Ascii.eqb c sep); [now rewrite IH|].
    rewrite IH.
    pose proof (split_not_nil sep a) as Hnil.
    destruct (JsString.split sep a); [now elim Hnil | reflexivity].
Qed.

Lemma split_free (sep : ascii) (s : string) :
  free_of sep s -> JsString.split sep s = [s].
Proof.
  induction s as [|c s IH]; intros Hfree; simpl; [reflexivity|].
  apply free_of_cons in Hfree. destruct Hfree as [Hc Hs].
  apply Ascii.eqb_neq in Hc. rewrite Hc, (IH Hs). reflexivity.
Qed.

(** The last segment after a separator is the text that follows its last
    occurrence. *)
Lemma split_pop_app (sep : ascii) (a t : string) :
  free_of sep t -> JsString.split_pop sep (a ++ String sep t) = t.
Proof.
  intros Hfree. unfold JsString.split_pop.
  rewrite split_app_sep, (split_free _ _ Hfree).
  apply last_last.
Qed.

Lemma split_segments_free (sep : ascii) (s : string) :
  Forall (free_of sep) (JsString.split sep s).
Proof.
  induction s as [|c s IH]; simpl.
  - constructor; [intros [] | constructor].
  - destruct (Ascii.eqb_spec c sep) as [->|Hc].
    + constructor; [intros [] | exact IH].
    + pose proof (split_not_nil sep s) as Hnil.
      destruct (JsString.split sep s) as [|h t]; [now elim Hnil|].
      inversion IH as [|? ? Hh Ht]; subst.
      constructor; [|exact Ht].
      apply free_of_cons. now split.
Qed.

Lemma split_pop_free (sep : ascii) (s : string) : free_of sep (JsString.split_pop sep s).
Proof.
  unfold JsString.split_pop.
  pose proof (split_segments_free sep s) as Hall.
  pose proof (split_not_nil sep s) as Hnil.
  destruct (exists_last Hnil) as (front & final & Heq).
  rewrite Heq in *. rewrite last_last.
  apply Forall_app in Hall. destruct Hall as [_ Hfinal].
  now inversion Hfinal.
Qed.

Lemma substring_from_app (p r : string) :
  JsString.substring_from (String.length p) (p ++ r) = r.
Proof.
  induction p as [|c p IH]; simpl; [now destruct r | exact IH].
Qed.

(** Removing a pattern that starts with [c] from a text whose head is free
    of [c] removes the occurrence right after that head. *)
Lemma remove_first_app (c : ascii) (pat stem rest : string) :
  free_of c stem ->
  JsString.remove_first (String c pat) (stem ++ String c pat ++ rest) = stem ++ rest.
Proof.
  induction stem as [|x stem IH]; intros Hfree.
  - cbn [append JsString.remove_first JsString.startsWith].
    rewrite Ascii.eqb_refl, startsWith_app.
    cbn [andb String.length JsString.substring_from].
    apply substring_from_app.
  - apply free_of_cons in Hfree. destruct Hfree as [Hx Hstem].
    cbn [append JsString.remove_first JsString.startsWith].
    replace (Ascii.eqb c x) with false by (symmetry; apply Ascii.eqb_neq; congruence).
    cbn [andb].
    change (stem ++ String c (pat ++ rest)) with (stem ++ String c pat ++ rest).
    now rewrite (IH Hstem).
Qed.

Lemma append_empty_r (s : string) : s ++ "" = s.
Proof.
  induction s as [|c s IH]; simpl; [reflexivity | now rewrite IH].
Qed.

Lemma remove_first_suffix (c : ascii) (pat stem : string) :
  free_of c stem ->
  JsString.remove_first (String c pat) (stem ++ String c pat) = stem.
Proof.
  intros Hfree.
  pose proof (remove_first_app c pat stem "" Hfree) as H.
  now rewrite !append_empty_r in H.
Qed.

Lemma truthy_app_r (a b : string) :
  JsString.truthy b = true -> JsString.truthy (a ++ b) = true.
Proof.
  destruct a; [trivial | reflexivity].
Qed.

Ltac solve_free_of := unfold free_of; simpl; intuition discriminate.

(** X11. For a file name without a [.test.] or [.spec.] marker, whatever
    its directories, the detected framework is the table's entry for the
    text after the last dot: jest for js and ts, pytest for py, junit for
    java, testing for go, rspec for rb, phpunit for php.  The file content
    plays no part. *)
Theorem detect_by_extension (content : option string) (stem ext : string)
        (framework : jsval) :
  In (ext, framework)
     [("js", VStr "jest"); ("ts", VStr "jest"); ("py", VStr "pytest");
      ("java", VStr "junit"); ("go", VStr "testing"); ("rb", VStr "rspec");
      ("php", VStr "phpunit")] ->
  JsString.includes (stem ++ "." ++ ext) ".test." = false ->
  JsString.includes (stem ++ "." ++ ext) ".spec." = false ->
  FrameworkCatalog.detectTestFramework content (stem ++ "." ++ ext) = framework.
Proof.
  intros Hin Htest Hspec.
  unfold FrameworkCatalog.detectTestFramework.
  rewrite Htest, Hspec. cbn [orb].
  change (stem ++ "." ++ ext) with (stem ++ String "." ext).
  simpl in Hin.
  repeat (destruct Hin as [[= <- <-]|Hin];
          [rewrite split_pop_app by solve_free_of; reflexivity|]).
  contradiction.
Qed.

Lemma detect_by_extension_witness :
  FrameworkCatalog.detectTestFramework None ("pkg/v1.2/server" ++ "." ++ "go") = VStr "testing".
Proof.
  apply (detect_by_extension None "pkg/v1.2/server" "go" (VStr "testing"));
    [simpl; tauto | reflexivity | reflexivity].
Defined.

Lemma existsb_eqb_false (key : string) (names : list string) :
  ~ In key names -> existsb (String.eqb key) names = false.
Proof.
  intros Hnot. destruct (existsb (String.eqb key) names) eqn:Hex; [|reflexivity].
  apply existsb_exists in Hex. destruct Hex as (name & Hin & Heq).
  apply String.eqb_eq in Heq. subst name. now elim Hnot.
Qed.

(** X12. An extension that is neither in the table nor the name of a
    member of [Object.prototype] is detected as generic. *)
Theorem detect_unknown_extension (content : option string) (stem ext : string) :
  free_of "." ext ->
  own_property FrameworkCatalog.frameworks ext = None ->
  ~ In ext object_prototype_members ->
  JsString.includes (stem ++ "." ++ ext) ".test." = false ->
  JsString.includes (stem ++ "." ++ ext) ".spec." = false ->
  FrameworkCatalog.detectTestFramework content (stem ++ "." ++ ext) = VStr "generic".
Proof.
  intros Hfree Hown Hproto Htest Hspec.
  unfold FrameworkCatalog.detectTestFramework.
  rewrite Htest, Hspec. cbn [orb].
  change (stem ++ "." ++ ext) with (stem ++ String "." ext).
  rewrite (split_pop_app _ _ _ Hfree).
  unfold get_property. rewrite Hown, (existsb_eqb_false _ _ Hproto).
  reflexivity.
Qed.

Lemma detect_unknown_extension_witness :
  FrameworkCatalog.detectTestFramework None ("src/main" ++ "." ++ "rs") = VStr "generic".
Proof.
  apply (detect_unknown_extension None "src/main" "rs");
    try reflexivity; solve_free_of.
Defined.

(** X13. An extension that names a member of [Object.prototype] is not
    detected as generic: the lookup finds the inherited member and the
    detected framework is that built-in value. *)
Theorem detect_inherited_extension (content : option string) (stem ext : string) :
  In ext object_prototype_members ->
  JsString.includes (stem ++ "." ++ ext) ".test." = false ->
  JsString.includes (stem ++ "." ++ ext) ".spec." = false ->
  FrameworkCatalog.detectTestFramework content (stem ++ "." ++ ext) = VNative ext.
Proof.
  intros Hin Htest Hspec.
  unfold FrameworkCatalog.detectTestFramework.
  rewrite Htest, Hspec. cbn [orb].
  change (stem ++ "." ++ ext) with (stem ++ String "." ext).
  unfold object_prototype_members in Hin. simpl in Hin.
  repeat (destruct Hin as [<-|Hin];
          [rewrite split_pop_app by solve_free_of; reflexivity|]).
  contradiction.
Qed.

Lemma detect_inherited_extension_witness :
  FrameworkCatalog.detectTestFramework None ("docs/notes" ++ "." ++ "toString")
  = VNative "toString".
Proof.
  apply (detect_inherited_extension None "docs/notes" "toString");
    [simpl; tauto | reflexivity | reflexivity].
Defined.

(** X14. For a file name [stem.ext] with no other dot, the test file is
    [stem.test.ext] for jest and for a framework without a pattern,
    [stemTest.java] for junit, [stem_test.go] for testing, [stem_spec.rb]
    for rspec, [stemTest.php] for phpunit, and for pytest [test_] followed
    by the last path segment of the stem and [.py]. *)
Theorem test_file_name_by_framework (stem ext : string) :
  free_of "." stem ->
  free_of "." ext ->
  let name := FrameworkCatalog.generateTestFileName (stem ++ "." ++ ext) in
  name (VStr "jest") = VStr (stem ++ ".test." ++ ext)
  /\ name (VStr "pytest") = VStr ("test_" ++ JsString.split_pop "/" stem ++ ".py")
  /\ name (VStr "junit") = VStr (stem ++ "Test.java")
  /\ name (VStr "testing") = VStr (stem ++ "_test.go")
  /\ name (VStr "rspec") = VStr (stem ++ "_spec.rb")
  /\ name (VStr "phpunit") = VStr (stem ++ "Test.php")
  /\ name (VStr "generic") = VStr (stem ++ ".test." ++ ext)
  /\ name (VStr "existing") = VStr (stem ++ ".test." ++ ext).
Proof.
  intros Hstem Hext name. unfold name, FrameworkCatalog.generateTestFileName.
  rewrite (split_pop_app _ _ _ Hext).
  change ("." ++ ext) with (String "." ext).
  rewrite (remove_first_suffix _ _ _ Hstem).
  unfold or_else, get_property, FrameworkCatalog.patterns.
  repeat split; simpl own_property; cbn [existsb truthy];
    try rewrite truthy_app_r by reflexivity; reflexivity.
Qed.

Lemma test_file_name_by_framework_witness :
  FrameworkCatalog.generateTestFileName ("src/api/users" ++ "." ++ "py") (VStr "pytest")
  = VStr ("test_" ++ JsString.split_pop "/" "src/api/users" ++ ".py").
Proof.
  apply (test_file_name_by_framework "src/api/users" "py"); solve_free_of.
Defined.

(** X15. The pytest test file name never contains a slash: the directory
    of the source file is dropped. *)
Theorem pytest_name_is_flat (filename : string) :
  exists name,
    FrameworkCatalog.generateTestFileName filename (VStr "pytest")
    = VStr ("test_" ++ name ++ ".py")
    /\ free_of "/" name.
Proof.
  unfold FrameworkCatalog.generateTestFileName.
  eexists. split; [reflexivity|].
  apply split_pop_free.
Qed.

(** X16. Only the first occurrence of the extension is removed: when a
    directory part already carries [.ext], it is that part which loses it
    and the file keeps its own, so the jest name ends in [.ext.test.ext]. *)
Theorem test_file_name_strips_first_occurrence (directory rest ext : string) :
  free_of "." directory ->
  free_of "." ext ->
  FrameworkCatalog.generateTestFileName
    (directory ++ "." ++ ext ++ rest ++ "." ++ ext) (VStr "jest")
  = VStr ((directory ++ rest ++ "." ++ ext) ++ ".test." ++ ext).
Proof.
  intros Hdirectory Hext. unfold FrameworkCatalog.generateTestFileName.
  replace (directory ++ "." ++ ext ++ rest ++ "." ++ ext)
    with ((directory ++ "." ++ ext ++ rest) ++ String "." ext)
    by (now rewrite !append_assoc).
  rewrite (split_pop_app _ _ _ Hext).
  replace ((directory ++ "." ++ ext ++ rest) ++ String "." ext)
    with (directory ++ String "." ext ++ (rest ++ "." ++ ext))
    by (now rewrite !append_assoc).
  change ("." ++ ext) with (String "." ext).
  rewrite (remove_first_app _ _ _ _ Hdirectory).
  unfold or_else, get_property, FrameworkCatalog.patterns. simpl own_property.
  now destruct (truthy _).
Qed.

Lemma test_file_name_strips_first_occurrence_witness :
  FrameworkCatalog.generateTestFileName
    ("lib" ++ "." ++ "js" ++ "/util" ++ "." ++ "js") (VStr "jest")
  = VStr (("lib" ++ "/util" ++ "." ++ "js") ++ ".test." ++ "js").
Proof.
  apply (test_file_name_strips_first_occurrence "lib" "/util" "js"); solve_free_of.
Defined.

(** ** Test writer: which files get tests, and when files are created *)

Lemma eligible_content (file : File.t) (text : string) :
  File.content file = Some text ->
  eligible file = JsString.truthy text && TestWriter.is_source_file (File.filename file).
Proof.
  intros H. unfold eligible. now rewrite H.
Qed.

Lemma eligible_no_content (file : File.t) :
  File.content file = None -> eligible file = false.
Proof.
  intros H. unfold eligible. now rewrite H.
Qed.

(** The first loop: it only awaits test generations, one per eligible
    file; when it completes, the counter has grown by their number and the
    list by their test file names, in order. *)
Lemma generate_spec (req : TestWriter.Request) (filesContent : list File.t) :
  forall (totalTestsGenerated : nat) (generatedTests : list TestWriter.GeneratedTest)
         (w : World) (trace : list Event)
         (outcome : Outcome (nat * list TestWriter.GeneratedTest)) (trace' : list Event),
    TestWriter.generate req filesContent totalTestsGenerated generatedTests w trace
    = (outcome, trace') ->
    exists calls,
      trace' = (trace ++ calls)%list
      /\ Forall is_generateTests calls
      /\ match outcome with
         | Returned (total, tests) =>
             total = totalTestsGenerated + List.length (filter eligible filesContent)
             /\ map TestWriter.test_file tests
                = (map TestWriter.test_file generatedTests
                   ++ map (fun file => FrameworkCatalog.generateTestFileName
                                         (File.filename file) (framework_for req file))
                          (filter eligible filesContent))%list
             /\ List.length calls = List.length (filter eligible filesContent)
         | Thrown _ => True
         end.
Proof.
  induction filesContent as [|file rest IH];
    intros totalTestsGenerated generatedTests w trace outcome trace' Hrun.
  - injection Hrun as <- <-. exists []. rewrite !app_nil_r.
    repeat split; [constructor | simpl; lia].
  - cbn [TestWriter.generate filter] in *.
    destruct (File.content file) as [text|] eqn:Hcontent.
    + rewrite (eligible_content file text Hcontent).
      destruct (JsString.truthy text && TestWriter.is_source_file (File.filename file)).
      * unfold bind, await in Hrun.
        match type of Hrun with
        | context [resolve w trace ?c] =>
            destruct (resolve w trace c) as [tests|error] eqn:Hcall
        end.
        -- destruct (IH _ _ _ _ _ _ Hrun) as (calls & -> & Hcalls & Hout).
           eexists (_ :: calls). rewrite <- app_assoc.
           split; [reflexivity|]. split; [constructor; [exact I | exact Hcalls]|].
           destruct outcome as [[total tests']|]; [|exact I].
           destruct Hout as (Htotal & Hnames & Hlen).
           rewrite map_app in Hnames. cbn [map TestWriter.test_file] in Hnames.
           rewrite <- app_assoc in Hnames.
           cbn [map List.length]. unfold framework_for at 1. rewrite Hcontent.
           repeat split; [lia | exact Hnames | lia].
        -- injection Hrun as <- <-.
           eexists [_]. split; [reflexivity|].
           split; [repeat constructor | exact I].
      * exact (IH _ _ _ _ _ _ Hrun).
    + rewrite (eligible_no_content file Hcontent).
      exact (IH _ _ _ _ _ _ Hrun).
Qed.

(** The second loop only awaits file creations. *)
Lemma create_spec (repo : string) (generatedTests : list TestWriter.GeneratedTest) :
  forall (w : World) (trace : list Event) (outcome : Outcome unit) (trace' : list Event),
    TestWriter.create repo generatedTests w trace = (outcome, trace') ->
    exists calls, trace' = (trace ++ calls)%list /\ Forall is_createTestFile calls.
Proof.
  induction generatedTests as [|test rest IH]; intros w trace outcome trace' Hrun.
  - injection Hrun as <- <-. exists []. now rewrite app_nil_r.
  - cbn [TestWriter.create] in Hrun. unfold bind, await in Hrun.
    match type of Hrun with
    | context [resolve w trace ?c] => destruct (resolve w trace c) as [[]|error]
    end.
    + destruct (IH _ _ _ _ Hrun) as (calls & -> & Hcalls).
      eexists (_ :: calls). rewrite <- app_assoc.
      split; [reflexivity | constructor; [exact I | exact Hcalls]].
    + injection Hrun as <- <-.
      eexists [_]. split; [reflexivity | repeat constructor].
Qed.

Lemma create_is_not_generate (e : Event) : is_createTestFile e -> ~ is_generateTests e.
Proof.
  destruct e as [[]|]; simpl; tauto.
Qed.

(** X17. In every record the test writer returns, [tests_generated] counts
    the fetched files that have content and a listed extension, and
    [test_files] holds, in the order of the fetched files, the test file
    name of each of them under the caller's framework or the detected one;
    the other files are skipped. *)
Theorem test_writer_covers_eligible_files (req : TestWriter.Request) (w : World)
        (fields : list (string * jsval)) :
  fst (run (TestWriter.handler req) w) = Returned (json (VObj fields)) ->
  exists repo pr filesContent,
    resolve w [] (fetchChangedFiles repo pr (TestWriter.changed_files req))
    = Returned filesContent
    /\ own_property fields "tests_generated"
       = Some (VNum (number_of_nat (List.length (filter eligible filesContent))))
    /\ own_property fields "test_files"
       = Some (VArr (map (fun file => FrameworkCatalog.generateTestFileName
                                        (File.filename file) (framework_for req file))
                         (filter eligible filesContent))).
Proof.
  unfold run, TestWriter.handler, try_catch.
  destruct (TestWriter.repository req) as [repo|]; [|discriminate].
  destruct (TestWriter.pr_number req) as [pr|]; [|discriminate].
  destruct (negb (JsString.truthy repo) || negb (negb (pr =? 0)%Z)); [discriminate|].
  unfold TestWriter.write_tests, bind, await.
  destruct (resolve w [] _) as [filesContent|error] eqn:Hfetch; [|discriminate].
  destruct (TestWriter.generate req filesContent 0 [] w _)
    as [[[totalTestsGenerated generatedTests]|error] generated] eqn:Hgenerate; [|discriminate].
  destruct (TestWriter.create repo generatedTests w generated) as [[[]|error] created];
    [|discriminate].
  unfold read, ret. cbn [fst].
  intros [= <-].
  destruct (generate_spec _ _ _ _ _ _ _ _ Hgenerate) as (calls & _ & _ & Htotal & Hnames & _).
  exists repo, pr, filesContent.
  split; [exact Hfetch|].
  cbn in Htotal, Hnames. subst totalTestsGenerated.
  split; [reflexivity|].
  cbn. now rewrite Hnames.
Qed.

Lemma test_writer_covers_eligible_files_witness :
  exists repo pr filesContent,
    resolve (world_of None changed_files_example
                      (fun _ => Returned (llm_result "test('total', () => {});")) 0.5)
            [] (fetchChangedFiles repo pr (TestWriter.changed_files tests_request))
    = Returned filesContent
    /\ own_property [("tests_generated", VNum 1);
                     ("test_files", VArr [VStr "src/cart.test.js"]);
                     ("coverage_estimate", VNum 90);
                     ("timestamp", VStr "2024-01-01T00:00:00.000Z")]
                    "tests_generated"
       = Some (VNum (number_of_nat (List.length (filter eligible filesContent))))
    /\ own_property [("tests_generated", VNum 1);
                     ("test_files", VArr [VStr "src/cart.test.js"]);
                     ("coverage_estimate", VNum 90);
                     ("timestamp", VStr "2024-01-01T00:00:00.000Z")]
                    "test_files"
       = Some (VArr (map (fun file => FrameworkCatalog.generateTestFileName
                                        (File.filename file)
                                        (framework_for tests_request file))
                         (filter eligible filesContent))).
Proof.
  apply (test_writer_covers_eligible_files tests_request
           (world_of None changed_files_example
                     (fun _ => Returned (llm_result "test('total', () => {});")) 0.5)).
  reflexivity.
Defined.

(** X18. The test writer creates files only after all tests are generated:
    when its trace holds a file creation, the trace is the fetch, then one
    test generation per eligible file, and no generation after that. *)
Theorem test_writer_creates_after_generation (req : TestWriter.Request) (w : World) :
  (exists e, In e (snd (run (TestWriter.handler req) w)) /\ is_createTestFile e) ->
  exists repo pr filesContent generation later,
    resolve w [] (fetchChangedFiles repo pr (TestWriter.changed_files req))
    = Returned filesContent
    /\ snd (run (TestWriter.handler req) w)
       = (Awaited (fetchChangedFiles repo pr (TestWriter.changed_files req))
          :: generation ++ later)%list
    /\ Forall is_generateTests generation
    /\ List.length generation = List.length (filter eligible filesContent)
    /\ Forall (fun e => ~ is_generateTests e) later.
Proof.
  unfold run, TestWriter.handler, try_catch.
  destruct (TestWriter.repository req) as [repo|];
    [|destruct (TestWriter.pr_number req); intros (e & [] & _)].
  destruct (TestWriter.pr_number req) as [pr|]; [|intros (e & [] & _)].
  destruct (negb (JsString.truthy repo) || negb (negb (pr =? 0)%Z)); [intros (e & [] & _)|].
  unfold TestWriter.write_tests, bind, await.
  destruct (resolve w [] _) as [filesContent|error] eqn:Hfetch.
  2:{ cbn. intros (e & [<-|[]] & He). destruct He. }
  destruct (TestWriter.generate req filesContent 0 [] w _)
    as [[[totalTestsGenerated generatedTests]|error] generated] eqn:Hgenerate.
  2:{ destruct (generate_spec _ _ _ _ _ _ _ _ Hgenerate) as (calls & -> & Hcalls & _).
      cbn. intros (e & [<-|Hin] & He); [destruct He|].
      rewrite Forall_forall in Hcalls.
      now elim (create_is_not_generate e He (Hcalls e Hin)). }
  destruct (generate_spec _ _ _ _ _ _ _ _ Hgenerate) as (calls & -> & Hcalls & _ & _ & Hlen).
  intros _.
  exists repo, pr, filesContent, calls.
  destruct (TestWriter.create repo generatedTests w _) as [[[]|error] created] eqn:Hcreate;
    destruct (create_spec _ _ _ _ _ _ Hcreate) as (creations & -> & Hcreations);
    unfold read, ret; cbn [snd app].
  - exists (creations ++ [Read Math_random; Read Date_toISOString])%list.
    split; [exact Hfetch|]. split; [now rewrite <- !app_assoc|].
    split; [exact Hcalls|]. split; [exact Hlen|].
    apply Forall_app. split.
    + apply (Forall_impl _ create_is_not_generate Hcreations).
    + repeat constructor; simpl; tauto.
  - exists creations.
    split; [exact Hfetch|]. split; [reflexivity|].
    split; [exact Hcalls|]. split; [exact Hlen|].
    apply (Forall_impl _ create_is_not_generate Hcreations).
Qed.

Lemma test_writer_creates_after_generation_witness :
  exists repo pr filesContent generation later,
    resolve (world_of None changed_files_example
                      (fun _ => Returned (llm_result "test('total', () => {});")) 0.5)
            [] (fetchChangedFiles repo pr (TestWriter.changed_files tests_request))
    = Returned filesContent
    /\ snd (run (TestWriter.handler tests_request)
                (world_of None changed_files_example
                          (fun _ => Returned (llm_result "test('total', () => {});")) 0.5))
       = (Awaited (fetchChangedFiles repo pr (TestWriter.changed_files tests_request))
          :: generation ++ later)%list
    /\ Forall is_generateTests generation
    /\ List.length generation = List.length (filter eligible filesContent)
    /\ Forall (fun e => ~ is_generateTests e) later.
Proof.
  apply (test_writer_creates_after_generation tests_request
           (world_of None changed_files_example
                     (fun _ => Returned (llm_result "test('total', () => {});")) 0.5)).
  exists (Awaited (createTestFile "acme/shop" (VStr "src/cart.test.js")
                                  (Some "test('total', () => {});"))).
  split; [simpl; tauto | exact I].
Defined.

(** X19. A test-writer request without a repository or without a PR number
    is answered with status 400 and a [received] object that tells which of
    the two was given, before any collaborator call. *)
Theorem test_writer_missing_parameters (req : TestWriter.Request) (w : World) :
  let pr_given := match TestWriter.pr_number req with
                  | Some pr => negb (pr =? 0)%Z
                  | None => false
                  end in
  truthy_opt (TestWriter.repository req) && pr_given = false ->
  run (TestWriter.handler req) w
  = (Returned (status_json 400 (VObj [
       ("error", VStr "Missing required parameters");
       ("required_parameters", VArr [VStr "repository"; VStr "pr_number"]);
       ("received", VObj [("repository", VBool (truthy_opt (TestWriter.repository req)));
                          ("pr_number", VBool pr_given)])])),
     []).
Proof.
  intros pr_given. subst pr_given.
  unfold run, TestWriter.handler, try_catch, TestWriter.missing_parameters, truthy_opt, ret.
  destruct (TestWriter.repository req) as [repo|];
    destruct (TestWriter.pr_number req) as [pr|]; intros Hmissing; try reflexivity.
  destruct (JsString.truthy repo), (pr =? 0)%Z; cbn in *; try discriminate; reflexivity.
Qed.

Lemma test_writer_missing_parameters_witness :
  run (TestWriter.handler
         {| TestWriter.repository := Some "";
            TestWriter.pr_number := Some 42%Z;
            TestWriter.changed_files := None;
            TestWriter.llm_model := None;
            TestWriter.test_framework := None |})
      offline_world
  = (Returned (status_json 400 (VObj [
       ("error", VStr "Missing required parameters");
       ("required_parameters", VArr [VStr "repository"; VStr "pr_number"]);
       ("received", VObj [("repository", VBool false); ("pr_number", VBool true)])])),
     []).
Proof.
  exact (test_writer_missing_parameters
           {| TestWriter.repository := Some "";
              TestWriter.pr_number := Some 42%Z;
              TestWriter.changed_files := None;
              TestWriter.llm_model := None;
              TestWriter.test_framework := None |}
           offline_world eq_refl).
Defined.

(** ** Build predictor: reserved fields and the optional dependency stage *)

Lemma own_property_set_same (fields : list (string * jsval)) (key : string) (v : jsval) :
  own_property (set_property fields key v) key = Some v.
Proof.
  induction fields as [|[k old] rest IH]; simpl.
  - now rewrite String.eqb_refl.
  - destruct (String.eqb k key) eqn:Hk; simpl; rewrite Hk; [reflexivity | exact IH].
Qed.

Lemma own_property_set_other (fields : list (string * jsval)) (key other : string) (v : jsval) :
  key <> other ->
  own_property (set_property fields key v) other = own_property fields other.
Proof.
  intros Hne. induction fields as [|[k old] rest IH]; simpl.
  - apply String.eqb_neq in Hne. now rewrite Hne.
  - destruct (String.eqb k key) eqn:Hk; simpl.
    + apply String.eqb_eq in Hk. subst k.
      apply String.eqb_neq in Hne. now rewrite Hne.
    + now rewrite IH.
Qed.

(** What the response of the build predictor looks up to, after the six
    fields of the route have been written over the spread prediction. *)
Lemma own_property_response (prediction : list (string * jsval))
      (commit_sha branch model_used provider dependency_analysis timestamp : jsval) :
  let fields := assign prediction [
                  ("commit_sha", commit_sha); ("branch", branch);
                  ("model_used", model_used); ("provider", provider);
                  ("dependency_analysis", dependency_analysis);
                  ("timestamp", timestamp)] in
  own_property fields "commit_sha" = Some commit_sha
  /\ own_property fields "branch" = Some branch
  /\ own_property fields "model_used" = Some model_used
  /\ own_property fields "provider" = Some provider
  /\ own_property fields "dependency_analysis" = Some dependency_analysis
  /\ own_property fields "timestamp" = Some timestamp
  /\ (forall key,
        ~ In key ["commit_sha"; "branch"; "model_used"; "provider";
                  "dependency_analysis"; "timestamp"] ->
        own_property fields key = own_property prediction key).
Proof.
  intros fields. subst fields. unfold assign. cbn [fold_left fst snd].
  repeat split;
    try (repeat (rewrite own_property_set_other by discriminate);
         now rewrite own_property_set_same).
  intros key Hkey. simpl in Hkey.
  repeat (rewrite own_property_set_other by (intros <-; tauto)).
  reflexivity.
Qed.

(** X20. When the changes, the build history, the dependency analysis (if
    requested) and the prediction all resolve, the build predictor answers
    status 200 whatever the prediction text parses to, and the six fields
    of the route are the route's own in the record: commit and branch of
    the request, model and provider of that LLM result, the dependency
    analysis that was resolved (null when it was not requested) and the
    reading of the clock taken after the prediction; every other field is
    the parsed prediction's, or the default prediction's. *)
Theorem build_predictor_reserved_fields (JSON_parse : string -> option jsval)
        (req : BuildPredictor.Request) (w : World)
        (changes buildHistory dependencies : jsval) (prediction : LlmResult) :
  let repository := BuildPredictor.repository req in
  let commit_sha := BuildPredictor.commit_sha req in
  let branch := BuildPredictor.branch req in
  let included := match BuildPredictor.include_dependencies req with
                  | Some b => b
                  | None => true
                  end in
  let gathered := [Awaited (getRecentChanges repository commit_sha);
                   Awaited (getBuildHistory repository branch)] in
  let analysed := if included
                  then (gathered ++ [Awaited (analyzeDependencies repository commit_sha)])%list
                  else gathered in
  let dependencyAnalysis := if included then dependencies else VNull in
  let predict := predictBuildOutcome changes buildHistory dependencyAnalysis
                                     (BuildPredictor.llm_model req) in
  resolve w [] (getRecentChanges repository commit_sha) = Returned changes ->
  resolve w [Awaited (getRecentChanges repository commit_sha)]
          (getBuildHistory repository branch) = Returned buildHistory ->
  (included = true ->
   resolve w gathered (analyzeDependencies repository commit_sha) = Returned dependencies) ->
  resolve w analysed predict = Returned prediction ->
  exists fields,
    run (BuildPredictor.handler JSON_parse req) w
    = (Returned (json (VObj fields)),
       (analysed ++ [Awaited predict; Read Date_toISOString])%list)
    /\ own_property fields "commit_sha" = Some (of_option_string commit_sha)
    /\ own_property fields "branch" = Some (of_option_string branch)
    /\ own_property fields "model_used" = Some (of_option_string (model prediction))
    /\ own_property fields "provider" = Some (of_option_string (provider prediction))
    /\ own_property fields "dependency_analysis" = Some dependencyAnalysis
    /\ own_property fields "timestamp"
       = Some (VStr (builtin w (analysed ++ [Awaited predict])%list Date_toISOString))
    /\ (forall key,
          ~ In key ["commit_sha"; "branch"; "model_used"; "provider";
                    "dependency_analysis"; "timestamp"] ->
          own_property fields key
          = own_property (spread (BuildPredictor.parse_or_default JSON_parse prediction)) key).
Proof.
  intros repository commit_sha branch included gathered analysed dependencyAnalysis predict
         Hchanges Hhistory Hdependencies Hpredict.
  unfold run, BuildPredictor.handler, try_catch, bind, await, read, ret.
  fold repository commit_sha branch. rewrite Hchanges. cbn [app].
  rewrite Hhistory. cbn [app]. fold included gathered.
  subst analysed dependencyAnalysis predict.
  destruct included.
  - rewrite (Hdependencies eq_refl). rewrite Hpredict.
    unfold gathered. rewrite <- !app_assoc. cbn [app].
    eexists. split; [reflexivity|]. apply own_property_response.
  - rewrite Hpredict. cbn [app].
    eexists. split; [reflexivity|]. apply own_property_response.
Qed.

Lemma build_predictor_reserved_fields_witness :
  exists fields,
    run (BuildPredictor.handler parse_literal prediction_request)
        (world_of None [] (fun _ => Returned (llm_result "{}")) 0.5)
    = (Returned (json (VObj fields)),
       [Awaited (getRecentChanges (Some "acme/shop") (Some "0123456789abcdef"));
        Awaited (getBuildHistory (Some "acme/shop") (Some "main"));
        Awaited (analyzeDependencies (Some "acme/shop") (Some "0123456789abcdef"));
        Awaited (predictBuildOutcome (VArr []) (VArr []) (VObj []) None);
        Read Date_toISOString])
    /\ own_property fields "commit_sha" = Some (VStr "0123456789abcdef")
    /\ own_property fields "branch" = Some (VStr "main")
    /\ own_property fields "model_used" = Some (VStr "gpt-4")
    /\ own_property fields "provider" = Some (VStr "openai")
    /\ own_property fields "dependency_analysis" = Some (VObj [])
    /\ own_property fields "timestamp" = Some (VStr "2024-01-01T00:00:00.000Z")
    /\ (forall key,
          ~ In key ["commit_sha"; "branch"; "model_used"; "provider";
                    "dependency_analysis"; "timestamp"] ->
          own_property fields key
          = own_property
              (spread (BuildPredictor.parse_or_default parse_literal (llm_result "{}"))) key).
Proof.
  apply (build_predictor_reserved_fields parse_literal prediction_request
           (world_of None [] (fun _ => Returned (llm_result "{}")) 0.5)
           (VArr []) (VArr []) (VObj []) (llm_result "{}"));
    reflexivity.
Defined.

(** X21. When the request sets [include_dependencies] to false, the build
    predictor never asks for a dependency analysis, and every record it
    returns carries [dependency_analysis: null]. *)
Theorem build_predictor_without_dependencies (JSON_parse : string -> option jsval)
        (req : BuildPredictor.Request) (w : World) :
  BuildPredictor.include_dependencies req = Some false ->
  Forall (fun e => ~ is_analyzeDependencies e)
         (snd (run (BuildPredictor.handler JSON_parse req) w))
  /\ (forall fields,
        fst (run (BuildPredictor.handler JSON_parse req) w) = Returned (json (VObj fields)) ->
        own_property fields "dependency_analysis" = Some VNull).
Proof.
  intros Hskip.
  unfold run, BuildPredictor.handler, try_catch, bind, await, read, ret.
  rewrite Hskip.
  destruct (resolve w [] _) as [changes|error];
    [|split; [repeat constructor; simpl; tauto | discriminate]].
  destruct (resolve w _ _) as [buildHistory|error];
    [|split; [repeat constructor; simpl; tauto | discriminate]].
  destruct (resolve w _ _) as [prediction|error];
    [|split; [repeat constructor; simpl; tauto | discriminate]].
  split; [repeat constructor; simpl; tauto|].
  cbn [fst]. intros fields [= <-].
  apply own_property_response.
Qed.

Lemma build_predictor_without_dependencies_witness :
  Forall (fun e => ~ is_analyzeDependencies e)
         (snd (run (BuildPredictor.handler parse_literal prediction_without_dependencies)
                   (world_of None [] (fun _ => Returned (llm_result "{}")) 0.5)))
  /\ (forall fields,
        fst (run (BuildPredictor.handler parse_literal prediction_without_dependencies)
                 (world_of None [] (fun _ => Returned (llm_result "{}")) 0.5))
        = Returned (json (VObj fields)) ->
        own_property fields "dependency_analysis" = Some VNull).
Proof.
  apply (build_predictor_without_dependencies parse_literal prediction_without_dependencies).
  reflexivity.
Defined.

(** ** Docker handler: the image tag and a failed build *)





(** A truthy commit that is not a string makes the route fail before the
    action is looked at. *)
Lemma docker_handler_commit_not_a_string (env : Env) (req : DockerHandler.Request)
      (w : World) :
  truthy (DockerHandler.commit_sha req) = true ->
  (forall sha, DockerHandler.commit_sha req <> VStr sha) ->
  run (DockerHandler.handler env req) w
  = (Returned (status_json 500 (VObj [
       ("error", VStr "Docker/K8s operation failed");
       ("message", VStr "commit_sha.substring is not a function")])),
     []).
Proof.
  intros Hgiven Hother.
  unfold run, DockerHandler.handler, try_catch, DockerHandler.imageTag.
  rewrite Hgiven.
  destruct (DockerHandler.commit_sha req) as [| | | |sha| | |]; try reflexivity.
  now elim (Hother sha).
Qed.

(** X23. When the image build rejects, the docker handler answers status
    500 with the error's message and never asks for manifests. *)
Theorem docker_handler_build_rejected (env : Env) (req : DockerHandler.Request) (w : World)
        (tag : string) (error : JsError) :
  let build := buildDockerImage (DockerHandler.repository req) tag in
  DockerHandler.imageTag req = Returned tag ->
  DockerHandler.action req = Some "build_and_push" ->
  resolve w [] build = Thrown error ->
  run (DockerHandler.handler env req) w
  = (Returned (status_json 500 (VObj [
       ("error", VStr "Docker/K8s operation failed");
       ("message", VStr (message error))])),
     [Awaited build]).
Proof.
  intros build Htag Haction Hbuild.
  unfold run, DockerHandler.handler, try_catch, bind, await.
  rewrite Htag, Haction. cbn [option_string_eqb]. rewrite String.eqb_refl.
  fold build. now rewrite Hbuild.
Qed.

Lemma docker_handler_build_rejected_witness :
  run (DockerHandler.handler production build_request) (failing_world unavailable)
  = (Returned (status_json 500 (VObj [
       ("error", VStr "Docker/K8s operation failed");
       ("message", VStr "service unavailable")])),
     [Awaited (buildDockerImage (Some "acme/shop") "acme/shop:01234567")]).
Proof.
  apply (docker_handler_build_rejected production build_request (failing_world unavailable)
           "acme/shop:01234567" unavailable);
    reflexivity.
Defined.

(** ** Monitor: what it reports whatever it measures *)


(** ** Vulnerability scan: the edges of the parse *)

(** X25. A text that parses to [null] is treated like a text that does not
    parse: the record comes from the keyword scan of the text, with an empty
    vulnerabilities list. *)
Theorem vulnerability_scan_null (JSON_parse : string -> option jsval)
        (req : VulnerabilityScan.Request) (w : World)
        (repoContent : jsval) (analysis : LlmResult) (text : string) :
  let repository := VulnerabilityScan.repository req in
  let branch := match VulnerabilityScan.branch req with Some b => b | None => "main" end in
  let scan_type := match VulnerabilityScan.scan_type req with
                   | Some t => t
                   | None => "comprehensive"
                   end in
  let fetch := fetchRepositoryContent repository branch in
  let analyze := analyzeVulnerabilities repoContent scan_type
                                        (VulnerabilityScan.llm_model req) in
  resolve w [] fetch = Returned repoContent ->
  resolve w [Awaited fetch] analyze = Returned analysis ->
  content analysis = Some text ->
  JSON_parse text = Some VNull ->
  run (VulnerabilityScan.handler JSON_parse req) w
  = (Returned (json (VObj [
       ("repository", of_option_string repository);
       ("branch", VStr branch);
       ("scan_type", VStr scan_type);
       ("risk_level", VStr (VulnerabilityScan.fallback_risk (JsString.toLowerCase text)));
       ("vulnerabilities", VArr []);
       ("total_issues", VNum 0);
       ("model_used", of_option_string (model analysis));
       ("provider", of_option_string (provider analysis));
       ("timestamp", VStr (builtin w [Awaited fetch; Awaited analyze] Date_toISOString))])),
     [Awaited fetch; Awaited analyze; Read Date_toISOString]).
Proof.
  intros repository branch scan_type fetch analyze Hfetch Hanalyze Htext Hparse.
  unfold run, VulnerabilityScan.handler, try_catch, bind, await, read.
  fold repository branch scan_type fetch. rewrite Hfetch. cbn [app].
  fold analyze. rewrite Hanalyze.
  unfold VulnerabilityScan.parse, VulnerabilityScan.structured.
  rewrite Htext. cbn [interpolate]. rewrite Hparse.
  unfold receiver, bind, ret. reflexivity.
Qed.

Lemma vulnerability_scan_null_witness :
  run (VulnerabilityScan.handler parse_literal scan_request)
      (world_of None [] (fun _ => Returned (llm_result "null")) 0.5)
  = (Returned (json (VObj [
       ("repository", VStr "acme/shop");
       ("branch", VStr "main");
       ("scan_type", VStr "comprehensive");
       ("risk_level", VStr "low");
       ("vulnerabilities", VArr []);
       ("total_issues", VNum 0);
       ("model_used", VStr "gpt-4");
       ("provider", VStr "openai");
       ("timestamp", VStr "2024-01-01T00:00:00.000Z")])),
     [Awaited (fetchRepositoryContent (Some "acme/shop") "main");
      Awaited (analyzeVulnerabilities (VStr "index.js") "comprehensive" None);
      Read Date_toISOString]).
Proof.
  apply (vulnerability_scan_null parse_literal scan_request
           (world_of None [] (fun _ => Returned (llm_result "null")) 0.5)
           (VStr "index.js") (llm_result "null") "null");
    reflexivity.
Defined.

(** X26. An analysis that resolves without a text makes the scan fail:
    the parse throws, the keyword scan has no text to lowercase, and the
    route answers status 500 with [risk_level: 'unknown']. *)
Theorem vulnerability_scan_without_content (JSON_parse : string -> option jsval)
        (req : VulnerabilityScan.Request) (w : World)
        (repoContent : jsval) (analysis : LlmResult) :
  let branch := match VulnerabilityScan.branch req with Some b => b | None => "main" end in
  let scan_type := match VulnerabilityScan.scan_type req with
                   | Some t => t
                   | None => "comprehensive"
                   end in
  let fetch := fetchRepositoryContent (VulnerabilityScan.repository req) branch in
  let analyze := analyzeVulnerabilities repoContent scan_type
                                        (VulnerabilityScan.llm_model req) in
  resolve w [] fetch = Returned repoContent ->
  resolve w [Awaited fetch] analyze = Returned analysis ->
  content analysis = None ->
  JSON_parse "undefined" = None ->
  exists reason,
    run (VulnerabilityScan.handler JSON_parse req) w
    = (Returned (status_json 500 (VObj [
         ("error", VStr "Vulnerability scan failed");
         ("message", VStr reason);
         ("risk_level", VStr "unknown")])),
       [Awaited fetch; Awaited analyze]).
Proof.
  intros branch scan_type fetch analyze Hfetch Hanalyze Htext Hparse.
  unfold run, VulnerabilityScan.handler, try_catch, bind, await, read.
  fold branch scan_type fetch. rewrite Hfetch. cbn [app].
  fold analyze. rewrite Hanalyze.
  unfold VulnerabilityScan.parse, VulnerabilityScan.structured.
  rewrite Htext. cbn [interpolate]. rewrite Hparse.
  eexists. reflexivity.
Qed.

Lemma vulnerability_scan_without_content_witness :
  exists reason,
    run (VulnerabilityScan.handler parse_literal scan_request)
        (world_of None []
                  (fun _ => Returned {| content := None; model := None; provider := None |})
                  0.5)
    = (Returned (status_json 500 (VObj [
         ("error", VStr "Vulnerability scan failed");
         ("message", VStr reason);
         ("risk_level", VStr "unknown")])),
       [Awaited (fetchRepositoryContent (Some "acme/shop") "main");
        Awaited (analyzeVulnerabilities (VStr "index.js") "comprehensive" None)]).
Proof.
  apply (vulnerability_scan_without_content parse_literal scan_request
           (world_of None []
                     (fun _ => Returned {| content := None; model := None; provider := None |})
                     0.5)
           (VStr "index.js") {| content := None; model := None; provider := None |});
    reflexivity.
Defined.

(** ** Deploy routes: the URL and the ignored deployment result *)

(** X27. For a repository [owner/name], the deployment URL is
    [https://<environment>.<name>.example.com]. *)
Theorem deployment_url_of_repository (environment : option string) (owner name : string) :
  free_of "/" owner ->
  free_of "/" name ->
  Deploy.deployment_url environment (VStr (owner ++ "/" ++ name))
  = Returned ("https://" ++ interpolate environment ++ "." ++ name ++ ".example.com").
Proof.
  intros Howner Hname. unfold Deploy.deployment_url. cbn [truthy].
  rewrite truthy_app_r by reflexivity.
  change (owner ++ "/" ++ name) with (owner ++ String "/" name).
  rewrite split_app_sep, (split_free _ _ Howner), (split_free _ _ Hname).
  reflexivity.
Qed.

Lemma deployment_url_of_repository_witness :
  Deploy.deployment_url (Some "staging") (VStr ("acme" ++ "/" ++ "shop"))
  = Returned ("https://" ++ interpolate (Some "staging") ++ "." ++ "shop" ++ ".example.com").
Proof.
  apply (deployment_url_of_repository (Some "staging") "acme" "shop"); solve_free_of.
Defined.

(** X28. For a repository name without a slash, the deployment URL has the
    host label [undefined]; only an absent or empty repository gives
    [app]. *)
Theorem deployment_url_without_owner (environment : option string) (repository : string) :
  repository <> "" ->
  free_of "/" repository ->
  Deploy.deployment_url environment (VStr repository)
  = Returned ("https://" ++ interpolate environment ++ ".undefined.example.com").
Proof.
  intros Hne Hfree. unfold Deploy.deployment_url. cbn [truthy].
  apply String.eqb_neq in Hne. unfold JsString.truthy. rewrite Hne. cbn [negb].
  rewrite (split_free _ _ Hfree). reflexivity.
Qed.

Lemma deployment_url_without_owner_witness :
  Deploy.deployment_url (Some "staging") (VStr "shop")
  = Returned ("https://" ++ interpolate (Some "staging") ++ ".undefined.example.com").
Proof.
  apply (deployment_url_without_owner (Some "staging") "shop");
    [discriminate | solve_free_of].
Defined.






